(** * Reflect: the performance-metrics engine ([src/lib/stats.ts])

    A shallow embedding of the four functions of the engine
    ([calculatePnl], [buildEquityCurve], [aggregateDailyPnl],
    [calculateMetrics]), of the computations of the page that feed on them,
    and the properties that hold of them.

    Numbers.  The engine is embedded twice.  The first embedding takes a
    finite JavaScript number as an exact rational ([Q], compared with [==]),
    with the infinities and NaN of a division by zero in [number]; it carries
    the properties of order, partition and structure, which do not depend on
    rounding.  The second, module [B64], computes on binary64 numbers and
    carries the properties that rounding, overflow or NaN decide.

    Dates.  [parseISO] belongs to the date-fns library; the engine only
    uses [parseISO(d).getTime()], which is taken as a parameter
    [getTime : string -> option Z] ([None] stands for the NaN of an
    invalid date).

    Sorting.  [Array.prototype.sort] is stable and, for a consistent
    comparator, returns the one stable ordering; it is embedded as a stable
    insertion sort.  With a date that does not parse the comparator returns
    NaN and the order is left to the implementation: the order properties
    are stated for dates that parse, and the others use of the sort only
    that it permutes its input.

    Objects.  The object built by [aggregateDailyPnl] is a finite map of
    its own properties, read through [Object.prototype]. *)

From Stdlib Require Import QArith Qminmax Qabs Qround Lqa.
From Stdlib Require Import Floats.SpecFloat.
From Stdlib Require Import Sorting.Sorted Sorting.Permutation Ascii String.
From Stdlib Require Import List.
From stdpp Require Import gmap strings list fin_maps.

Local Open Scope Q_scope.

(** ** Numbers *)

Inductive number : Type :=
| Fin (q : Q)
| PosInf
| NegInf
| NaN.

(** [x / y] on finite operands: a zero divisor gives an infinity of the sign
    of the dividend, or NaN for [0 / 0]. *)
Definition div_finite (x y : Q) : number :=
  if Qeq_bool y 0 then
    match x ?= 0 with
    | Eq => NaN
    | Gt => PosInf
    | Lt => NegInf
    end
  else Fin (x / y).

(** The JavaScript operator [/]. *)
Definition num_div (a b : number) : number :=
  match a, b with
  | NaN, _ | _, NaN => NaN
  | Fin x, Fin y => div_finite x y
  | Fin _, (PosInf | NegInf) => Fin 0
  | (PosInf | NegInf), (PosInf | NegInf) => NaN
  | PosInf, Fin y => if Qle_bool 0 y then PosInf else NegInf
  | NegInf, Fin y => if Qle_bool 0 y then NegInf else PosInf
  end.

(** The JavaScript operator [*]. *)
Definition num_mul (a b : number) : number :=
  match a, b with
  | NaN, _ | _, NaN => NaN
  | Fin x, Fin y => Fin (x * y)
  | PosInf, Fin y | Fin y, PosInf =>
      match y ?= 0 with Eq => NaN | Gt => PosInf | Lt => NegInf end
  | NegInf, Fin y | Fin y, NegInf =>
      match y ?= 0 with Eq => NaN | Gt => NegInf | Lt => PosInf end
  | PosInf, PosInf | NegInf, NegInf => PosInf
  | PosInf, NegInf | NegInf, PosInf => NegInf
  end.

(** [Math.abs]. *)
Definition Math_abs (a : number) : number :=
  match a with
  | Fin x => Fin (Qabs x)
  | PosInf | NegInf => PosInf
  | NaN => NaN
  end.

(** [a !== 0] on numbers. *)
Definition num_nonzero (a : number) : bool :=
  match a with
  | Fin x => negb (Qeq_bool x 0)
  | _ => true
  end.

(** [Math.max] on finite numbers. *)
Definition Math_max (a b : Q) : Q := Qmax a b.

(** An array length as a number. *)
Definition of_length {A} (l : list A) : Q := inject_Z (Z.of_nat (length l)).

Definition is_finite (a : number) : Prop :=
  match a with Fin _ => True | _ => False end.

(** Two numbers denote the same value. *)
Definition num_eq (a b : number) : Prop :=
  match a, b with
  | Fin x, Fin y => x == y
  | PosInf, PosInf | NegInf, NegInf | NaN, NaN => True
  | _, _ => False
  end.

(** The same, for a field that may be [null]. *)
Definition nullable_eq (a b : option number) : Prop :=
  match a, b with
  | Some x, Some y => num_eq x y
  | None, None => True
  | _, _ => False
  end.

(** ** Records *)

Inductive Side := long | short.
Inductive Outcome := win | loss.

(** Modelled from the spec: the declarations of [./types] ([Trade] and
    [CashMove]) are not among the sources; the fields are those of section 3
    of the specification and of the uses in [stats.ts] and [page.tsx]. *)
Module Trade.
Record t := mk
  { id : string;
    date : string;
    asset : string;
    side : Side;
    outcome : Outcome;
    amount : Q;
    note : option string }.
End Trade.

Module CashMove.
Record t := mk
  { id : string;
    date : string;
    amount : Q;
    note : option string }.
End CashMove.

(** The anonymous [{date, delta}] objects of [buildEquityCurve]. *)
Module Entry.
Record t := mk { date : string; delta : Q }.
End Entry.

Module EquityPoint.
Record t := mk { date : string; value : Q; pnl : Q }.
End EquityPoint.

Module TrackRecordMetrics.
Record t := mk
  { netPnl : Q;
    winRate : number;
    profitFactor : option number;
    riskReward : option number;
    maxDrawdown : Q;
    averageWin : option number;
    averageLoss : option number;
    totalTrades : nat }.
End TrackRecordMetrics.

(** ** The engine *)

Definition calculatePnl (trade : Trade.t) : Q :=
  let sign := match Trade.outcome trade with win => 1 | loss => -1 end in
  Trade.amount trade * sign.

(** [arr.reduce((a, b) => a + b, 0)] *)
Definition sum (arr : list Q) : Q := fold_left Qplus arr 0.

(** [x < y] as a test. *)
Definition Qltb (x y : Q) : bool :=
  match x ?= y with Lt => true | _ => false end.

Section Engine.

(** [parseISO(d).getTime()]: milliseconds since the epoch, [None] for the
    NaN of an invalid date. *)
Variable getTime : string -> option Z.

(** The comparator handed to [sort]:
    [parseISO(a.date).getTime() - parseISO(b.date).getTime()]. *)
Definition comparefn (a b : Entry.t) : option Z :=
  match getTime (Entry.date a), getTime (Entry.date b) with
  | Some x, Some y => Some (x - y)%Z
  | _, _ => None
  end.

(** [SortCompare] of ECMAScript: a NaN from the comparator counts as [+0]. *)
Definition SortCompare (a b : Entry.t) : Z :=
  match comparefn a b with
  | Some v => v
  | None => 0%Z
  end.

(** [Array.prototype.sort] is a stable sort whose algorithm the standard
    leaves open; it is modelled as a stable insertion sort.  With a
    consistent comparator every stable sort returns the same array. *)
Fixpoint insert_sorted (x : Entry.t) (l : list Entry.t) : list Entry.t :=
  match l with
  | [] => [x]
  | y :: l' =>
      if (SortCompare x y <=? 0)%Z then x :: y :: l'
      else y :: insert_sorted x l'
  end.

Fixpoint sort (l : list Entry.t) : list Entry.t :=
  match l with
  | [] => []
  | x :: l' => insert_sorted x (sort l')
  end.

Definition tradeEntry (trade : Trade.t) : Entry.t :=
  {| Entry.date := Trade.date trade; Entry.delta := calculatePnl trade |}.

Definition depositEntry (deposit : CashMove.t) : Entry.t :=
  {| Entry.date := CashMove.date deposit;
     Entry.delta := CashMove.amount deposit |}.

(** The final [entries.map] with its captured accumulator [equity]. *)
Fixpoint accumulate (equity : Q) (entries : list Entry.t)
  : list EquityPoint.t :=
  match entries with
  | [] => []
  | entry :: rest =>
      let equity' := equity + Entry.delta entry in
      {| EquityPoint.date := Entry.date entry;
         EquityPoint.value := equity';
         EquityPoint.pnl := Entry.delta entry |} :: accumulate equity' rest
  end.

Definition entriesOf (trades : list Trade.t) (deposits : list CashMove.t)
  : list Entry.t :=
  sort (map tradeEntry trades ++ map depositEntry deposits).

Definition buildEquityCurve (trades : list Trade.t)
    (deposits : list CashMove.t) : list EquityPoint.t :=
  accumulate 0 (entriesOf trades deposits).

(** The [forEach] of [calculateMetrics]: one step on the pair
    [(peak, maxDrawdown)]. *)
Definition drawdownStep (st : Q * Q) (point : EquityPoint.t) : Q * Q :=
  let peak := Math_max (fst st) (EquityPoint.value point) in
  (peak, Math_max (snd st) (peak - EquityPoint.value point)).

Definition drawdownWalk (equityPoints : list EquityPoint.t) : Q * Q :=
  fold_left drawdownStep equityPoints (0, 0).

Definition calculateMetrics (trades : list Trade.t) : TrackRecordMetrics.t :=
  match trades with
  | [] =>
      {| TrackRecordMetrics.netPnl := 0;
         TrackRecordMetrics.winRate := Fin 0;
         TrackRecordMetrics.profitFactor := None;
         TrackRecordMetrics.riskReward := None;
         TrackRecordMetrics.maxDrawdown := 0;
         TrackRecordMetrics.averageWin := None;
         TrackRecordMetrics.averageLoss := None;
         TrackRecordMetrics.totalTrades := 0 |}
  | _ :: _ =>
      let pnls := map calculatePnl trades in
      let winners := List.filter (fun p => Qltb 0 p) pnls in
      let losers := List.filter (fun p => Qltb p 0) pnls in
      let averageWin :=
        match winners with
        | [] => None
        | _ => Some (num_div (Fin (sum winners)) (Fin (of_length winners)))
        end in
      let averageLoss :=
        match losers with
        | [] => None
        | _ => Some (num_div (Fin (sum losers)) (Fin (of_length losers)))
        end in
      let profitFactor :=
        match winners, losers with
        | _ :: _, _ :: _ =>
            Some (num_div (Fin (sum winners)) (Math_abs (Fin (sum losers))))
        | _, _ => None
        end in
      let riskReward :=
        match averageWin, averageLoss with
        | Some aw, Some al =>
            if num_nonzero al then Some (num_div aw (Math_abs al)) else None
        | _, _ => None
        end in
      let equityPoints := buildEquityCurve trades [] in
      let maxDrawdown := snd (drawdownWalk equityPoints) in
      {| TrackRecordMetrics.netPnl := sum pnls;
         TrackRecordMetrics.winRate :=
           num_mul (num_div (Fin (of_length winners)) (Fin (of_length trades)))
                   (Fin 100);
         TrackRecordMetrics.profitFactor := profitFactor;
         TrackRecordMetrics.riskReward := riskReward;
         TrackRecordMetrics.maxDrawdown := maxDrawdown;
         TrackRecordMetrics.averageWin := averageWin;
         TrackRecordMetrics.averageLoss := averageLoss;
         TrackRecordMetrics.totalTrades := length trades |}
  end.

End Engine.

(** ** An instance of [getTime] for calendar dates

    [isoTime] reads the dates [yyyy-mm-dd] that the application stores and
    gives midnight UTC of that day in milliseconds; any other string is an
    invalid date. *)

Definition digit (c : ascii) : option Z :=
  let n := (Z.of_N (N_of_ascii c) - 48)%Z in
  if ((0 <=? n) && (n <=? 9))%Z then Some n else None.

Definition isLeap (y : Z) : bool :=
  ((y mod 4 =? 0) && (negb (y mod 100 =? 0) || (y mod 400 =? 0)))%Z.

Definition daysInMonth (y m : Z) : Z :=
  if (m =? 2)%Z then (if isLeap y then 29 else 28)%Z
  else if ((m =? 4) || (m =? 6) || (m =? 9) || (m =? 11))%Z then 30%Z
  else 31%Z.

(** Days between 1970-01-01 and the given civil date. *)
Definition daysFromCivil (y m d : Z) : Z :=
  let y' := (if m <=? 2 then y - 1 else y)%Z in
  let era := (y' / 400)%Z in
  let yoe := (y' - era * 400)%Z in
  let mp := (if 2 <? m then m - 3 else m + 9)%Z in
  let doy := ((153 * mp + 2) / 5 + d - 1)%Z in
  let doe := (yoe * 365 + yoe / 4 - yoe / 100 + doy)%Z in
  (era * 146097 + doe - 719468)%Z.

Definition isoTime (s : string) : option Z :=
  match list_ascii_of_string s with
  | [y1; y2; y3; y4; dash1; m1; m2; dash2; d1; d2] =>
      if (Ascii.eqb dash1 "-"%char && Ascii.eqb dash2 "-"%char)%bool then
        match digit y1, digit y2, digit y3, digit y4,
              digit m1, digit m2, digit d1, digit d2 with
        | Some a, Some b, Some c, Some e, Some f, Some g, Some h, Some i =>
            let y := (a * 1000 + b * 100 + c * 10 + e)%Z in
            let m := (f * 10 + g)%Z in
            let d := (h * 10 + i)%Z in
            if ((1 <=? m) && (m <=? 12) && (1 <=? d)
                && (d <=? daysInMonth y m))%Z
            then Some (daysFromCivil y m d * 86400000)%Z
            else None
        | _, _, _, _, _, _, _, _ => None
        end
      else None
  | _ => None
  end.

(** ** Vocabulary of the statements *)

(** A trade and a deposit as the entry forms store them. *)
Definition mkTrade (date : string) (outcome : Outcome) (amount : Q) : Trade.t :=
  {| Trade.id := "t"; Trade.date := date; Trade.asset := "EURUSD";
     Trade.side := long; Trade.outcome := outcome; Trade.amount := amount;
     Trade.note := None |}.

Definition mkDeposit (date : string) (amount : Q) : CashMove.t :=
  {| CashMove.id := "d"; CashMove.date := date; CashMove.amount := amount;
     CashMove.note := None |}.

(** [d1] parses to a time no later than that of [d2]. *)
Definition timeLe (getTime : string -> option Z) (d1 d2 : string) : Prop :=
  match getTime d1, getTime d2 with
  | Some x, Some y => (x <= y)%Z
  | _, _ => False
  end.

(** The entry falls at time [t]. *)
Definition atTime (getTime : string -> option Z) (t : Z) (e : Entry.t) : bool :=
  match getTime (Entry.date e) with
  | Some x => (x =? t)%Z
  | None => false
  end.

(** The event ([date] and [delta]) a point of the curve was made from. *)
Definition pointEntry (p : EquityPoint.t) : Entry.t :=
  {| Entry.date := EquityPoint.date p; Entry.delta := EquityPoint.pnl p |}.


(** Each value is at least the value before it. *)
Fixpoint nonDecreasing (values : list Q) : bool :=
  match values with
  | a :: (b :: _) as rest => Qle_bool a b && nonDecreasing rest
  | _ => true
  end.

(** The two partitions of [calculateMetrics]: the results above 0 and the
    results below 0. *)
Definition winnersOf (trades : list Trade.t) : list Q :=
  List.filter (fun p => Qltb 0 p) (map calculatePnl trades).

Definition losersOf (trades : list Trade.t) : list Q :=
  List.filter (fun p => Qltb p 0) (map calculatePnl trades).

(** ** The page ([src/app/page.tsx])

    The computations of the page component that feed on the engine: the
    filtered and sorted trade list, the totals of the header, the trend, the
    columns and colours of the heatmap, the list of recent deposits and the
    updates of the stored state. *)

(** [-a] on numbers. *)
Definition num_neg (a : number) : number :=
  match a with
  | Fin x => Fin (- x)
  | PosInf => NegInf
  | NegInf => PosInf
  | NaN => NaN
  end.

(** What [sort] does with the result [v] of [comparefn(x, y)]: [x] stays
    before [y] unless [v > 0]; a NaN counts as [+0]. *)
Definition staysBefore (v : number) : bool :=
  match v with
  | Fin q => Qle_bool q 0
  | NegInf => true
  | PosInf => false
  | NaN => true
  end.

(** [Array.prototype.sort] with a comparator returning a number, as a stable
    insertion sort. *)
Section SortWith.

Context {A : Type} (comparefn : A -> A -> number).

Fixpoint insertWith (x : A) (l : list A) : list A :=
  match l with
  | [] => [x]
  | y :: l' =>
      if staysBefore (comparefn x y) then x :: y :: l'
      else y :: insertWith x l'
  end.

Fixpoint sortWith (l : list A) : list A :=
  match l with
  | [] => []
  | x :: l' => insertWith x (sortWith l')
  end.

End SortWith.

(** [parseISO(a).getTime() - parseISO(b).getTime()] *)
Definition timeDiff (getTime : string -> option Z) (a b : string) : number :=
  match getTime a, getTime b with
  | Some x, Some y => Fin (inject_Z (x - y))
  | _, _ => NaN
  end.

(** [parseISO(a) < parseISO(b)]: false as soon as one date is invalid. *)
Definition dateBefore (getTime : string -> option Z) (a b : string) : bool :=
  match getTime a, getTime b with
  | Some x, Some y => (x <? y)%Z
  | _, _ => false
  end.

Inductive OutcomeFilter := anyOutcome | onlyOutcome (o : Outcome).
Inductive SideFilter := anySide | onlySide (s : Side).

Module Filters.
Record t := mk
  { asset : string;
    outcome : OutcomeFilter;
    side : SideFilter;
    dateFrom : string;
    dateTo : string }.
End Filters.

Definition defaultFilters : Filters.t :=
  {| Filters.asset := "all"; Filters.outcome := anyOutcome;
     Filters.side := anySide; Filters.dateFrom := ""; Filters.dateTo := "" |}.

Inductive SortKey := keyDate | keyPnl.
Inductive SortDir := asc | desc.

Definition Outcome_eqb (a b : Outcome) : bool :=
  match a, b with
  | win, win | loss, loss => true
  | _, _ => false
  end.

Definition Side_eqb (a b : Side) : bool :=
  match a, b with
  | long, long | short, short => true
  | _, _ => false
  end.

(** The callback of [trades.filter] in [filteredTrades]. *)
Definition keepTrade (getTime : string -> option Z) (filters : Filters.t)
    (trade : Trade.t) : bool :=
  if negb (String.eqb (Filters.asset filters) "all")
     && negb (String.eqb (Trade.asset trade) (Filters.asset filters))
  then false
  else if match Filters.side filters with
          | anySide => false
          | onlySide s => negb (Side_eqb (Trade.side trade) s)
          end
  then false
  else if match Filters.outcome filters with
          | anyOutcome => false
          | onlyOutcome o => negb (Outcome_eqb (Trade.outcome trade) o)
          end
  then false
  else if negb (String.eqb (Filters.dateFrom filters) "")
          && dateBefore getTime (Trade.date trade) (Filters.dateFrom filters)
  then false
  else if negb (String.eqb (Filters.dateTo filters) "")
          && dateBefore getTime (Filters.dateTo filters) (Trade.date trade)
  then false
  else true.

(** The comparator of [filteredTrades]. *)
Definition tradeComparefn (getTime : string -> option Z) (sortBy : SortKey)
    (sortDir : SortDir) (a b : Trade.t) : number :=
  match sortBy with
  | keyDate =>
      let diff := timeDiff getTime (Trade.date a) (Trade.date b) in
      match sortDir with asc => diff | desc => num_neg diff end
  | keyPnl =>
      let pnlDiff := Fin (calculatePnl a - calculatePnl b) in
      match sortDir with asc => pnlDiff | desc => num_neg pnlDiff end
  end.

Definition filteredTrades (getTime : string -> option Z) (filters : Filters.t)
    (sortBy : SortKey) (sortDir : SortDir) (trades : list Trade.t)
  : list Trade.t :=
  sortWith (tradeComparefn getTime sortBy sortDir)
    (List.filter (keepTrade getTime filters) trades).

(** [pnlTrend]; [None] stands for the TypeError of reading [value] off a
    missing element. *)
Definition pnlTrend (equityCurve : list EquityPoint.t) : option Q :=
  let len := Z.of_nat (length equityCurve) in
  if (2 <=? len)%Z then
    match equityCurve !! Z.to_nat (len - 1),
          equityCurve !! Z.to_nat (Z.max 0 (len - 4)) with
    | Some a, Some b => Some (EquityPoint.value a - EquityPoint.value b)
    | _, _ => None
    end
  else Some 0.

(** The four most recent deposits:
    [deposits.slice().sort(...).slice(0, 4)]. *)
Definition recentDeposits (getTime : string -> option Z)
    (deposits : list CashMove.t) : list CashMove.t :=
  take 4
    (sortWith
       (fun a b => timeDiff getTime (CashMove.date b) (CashMove.date a))
       deposits).

(** *** The heatmap *)

(** [arr[i] = v] on an array with holes ([None]): past the end the array
    grows, and the skipped places are holes. *)
Definition assignAt {A} (i : nat) (v : A) (arr : list (option A))
  : list (option A) :=
  if (i <? length arr)%nat then <[i := Some v]> arr
  else arr ++ replicate (i - length arr) None ++ [Some v].

(** One call of the [days.forEach] callback of [Heatmap];
    [weeks[weekIndex].push(day)] on a missing week would be a TypeError, which
    the line before it excludes. *)
Definition pushDay {A} (weeks : list (option (list A))) (day : A) (index : nat)
  : list (option (list A)) :=
  let weekIndex := (index / 7)%nat in
  let weeks' :=
    match weeks !! weekIndex with
    | Some (Some _) => weeks
    | _ => assignAt weekIndex [] weeks
    end in
  alter (fun week => match week with
                     | Some w => Some (w ++ [day])
                     | None => None
                     end) weekIndex weeks'.

Fixpoint forEachDay {A} (days : list A) (index : nat)
    (weeks : list (option (list A))) : list (option (list A)) :=
  match days with
  | [] => weeks
  | day :: rest => forEachDay rest (S index) (pushDay weeks day index)
  end.

Definition heatmapWeeks {A} (days : list A) : list (option (list A)) :=
  forEachDay days 0 [].

(** [Math.max(0, ...Object.values(dailyPnls).map(Math.abs))] *)
Definition maxAbs (dailyPnls : gmap string Q) : Q :=
  map_fold (fun _ value acc => Qmax acc (Qabs value)) 0 dailyPnls.

(** A CSS colour: a hexadecimal literal or [rgba(r, g, b, alpha)]. *)
Inductive Color :=
| Hex (code : string)
| Rgba (r g b : Z) (alpha : Q).

(** [colorFor] of [Heatmap], for the given [maxAbs]; [None] is
    [undefined]. *)
Definition colorFor (maxAbs : Q) (value : option Q) : Color :=
  match value with
  | None => Hex "#1f2937"
  | Some value =>
      if Qeq_bool value 0 then Hex "#1f2937"
      else
        let intensity :=
          if negb (Qeq_bool maxAbs 0) then Qmin 1 (Qabs value / maxAbs)
          else 2 # 10 in
        let alpha := (18 # 100) + intensity * (6 # 10) in
        if Qltb 0 value then Rgba 82 227 173 alpha
        else Rgba 248 113 113 alpha
  end.

(** *** The stored state *)

(** Modelled from the spec: [AppState] is declared in [./types], which is not
    among the sources; its two fields are those the page reads and writes. *)
Module AppState.
Record t := mk { trades : list Trade.t; deposits : list CashMove.t }.
End AppState.

(** The stored value is an [AppState] or, from older versions, a bare array
    of trades. *)
Inductive RawState :=
| bareTrades (trades : list Trade.t)
| appState (state : AppState.t).

(** [Array.isArray(prev) ? { trades: prev, deposits: [] } : prev] *)
Definition currentState (prev : RawState) : AppState.t :=
  match prev with
  | bareTrades trades => {| AppState.trades := trades; AppState.deposits := [] |}
  | appState state => state
  end.

(** The state updates of [handleSubmit], [handleDeposit], [deleteTrade] and
    [deleteDeposit]. *)
Definition addTrade (data : Trade.t) (prev : RawState) : RawState :=
  let current := currentState prev in
  appState {| AppState.trades := AppState.trades current ++ [data];
              AppState.deposits := AppState.deposits current |}.

Definition addDeposit (data : CashMove.t) (prev : RawState) : RawState :=
  let current := currentState prev in
  appState {| AppState.trades := AppState.trades current;
              AppState.deposits := AppState.deposits current ++ [data] |}.

Definition removeTrade (id : string) (prev : RawState) : RawState :=
  let current := currentState prev in
  appState {| AppState.trades :=
                List.filter (fun t => negb (String.eqb (Trade.id t) id))
                  (AppState.trades current);
              AppState.deposits := AppState.deposits current |}.

Definition removeDeposit (id : string) (prev : RawState) : RawState :=
  let current := currentState prev in
  appState {| AppState.trades := AppState.trades current;
              AppState.deposits :=
                List.filter (fun d => negb (String.eqb (CashMove.id d) id))
                  (AppState.deposits current) |}.

(** *** The outcome shares (second version of the page) *)

(** [Math.round]: the nearest integer, halves going up. *)
Definition Math_round (x : Q) : Z := Qfloor (x + (1 # 2)).

Definition winCount (trades : list Trade.t) : nat :=
  length (List.filter (fun t => Outcome_eqb (Trade.outcome t) win) trades).

Definition lossCount (trades : list Trade.t) : nat :=
  length (List.filter (fun t => Outcome_eqb (Trade.outcome t) loss) trades).

Definition winShare (trades : list Trade.t) : Z :=
  let outcomeTotal := (winCount trades + lossCount trades)%nat in
  match outcomeTotal with
  | O => 0%Z
  | S _ =>
      Math_round (inject_Z (Z.of_nat (winCount trades))
                  / inject_Z (Z.of_nat outcomeTotal) * 100)
  end.

Definition lossShare (trades : list Trade.t) : Z :=
  let outcomeTotal := (winCount trades + lossCount trades)%nat in
  match outcomeTotal with
  | O => 0%Z
  | S _ => (100 - winShare trades)%Z
  end.

(** The filters with the date range cleared. *)
Definition withoutDates (filters : Filters.t) : Filters.t :=
  {| Filters.asset := Filters.asset filters;
     Filters.outcome := Filters.outcome filters;
     Filters.side := Filters.side filters;
     Filters.dateFrom := ""; Filters.dateTo := "" |}.

(** Weeks of seven days, the last one possibly shorter. *)
Definition weeksShape {A} (chunks : list (list A)) : Prop :=
  chunks = []
  \/ exists full w,
       chunks = full ++ [w]
       /\ Forall (fun week => length week = 7%nat) full
       /\ (1 <= length w <= 7)%nat.

(** * The engine on binary64 numbers

    Where rounding, overflow or NaN decide a property, the engine is read
    on the numbers JavaScript computes with: binary64, as the Standard
    Library specifies it ([spec_float], with the operations of [SpecFloat]
    at precision 53 and maximal exponent 1024, rounding to nearest even). *)

Module B64.

Definition prec : Z := 53%Z.
Definition emax : Z := 1024%Z.

Definition add : spec_float -> spec_float -> spec_float := SFadd prec emax.
Definition sub : spec_float -> spec_float -> spec_float := SFsub prec emax.
Definition mul : spec_float -> spec_float -> spec_float := SFmul prec emax.
Definition div : spec_float -> spec_float -> spec_float := SFdiv prec emax.

Definition zero : spec_float := S754_zero false.

(** An integer as a number (exact below 2^53). *)
Definition ofZ (z : Z) : spec_float := binary_normalize prec emax z 0 false.

(** The binary64 number nearest to [n / d]: [ratio 1 10] is the literal
    [0.1]. *)
Definition ratio (n d : Z) : spec_float := div (ofZ n) (ofZ d).

(** [2^e] *)
Definition pow2 (e : Z) : spec_float := binary_normalize prec emax 1 e false.

(** An array length as a number. *)
Definition ofLength {A} (l : list A) : spec_float := ofZ (Z.of_nat (length l)).

Definition isNaN (x : spec_float) : bool :=
  match x with S754_nan => true | _ => false end.

Definition isFinite (x : spec_float) : bool :=
  match x with S754_zero _ | S754_finite _ _ _ => true | _ => false end.

(** [Math.max(a, b)]: NaN if one argument is, and [+0] above [-0]. *)
Definition Math_max (a b : spec_float) : spec_float :=
  if isNaN a || isNaN b then S754_nan
  else if SFltb a b then b
  else if SFltb b a then a
  else match a with S754_zero true => b | _ => a end.

(** [Math.abs] *)
Definition Math_abs (a : spec_float) : spec_float := SFabs a.

Module Trade.
Record t := mk
  { id : string;
    date : string;
    asset : string;
    side : Side;
    outcome : Outcome;
    amount : spec_float;
    note : option string }.
End Trade.

Module CashMove.
Record t := mk
  { id : string;
    date : string;
    amount : spec_float;
    note : option string }.
End CashMove.

Module Entry.
Record t := mk { date : string; delta : spec_float }.
End Entry.

Module EquityPoint.
Record t := mk { date : string; value : spec_float; pnl : spec_float }.
End EquityPoint.

Module TrackRecordMetrics.
Record t := mk
  { netPnl : spec_float;
    winRate : spec_float;
    profitFactor : option spec_float;
    riskReward : option spec_float;
    maxDrawdown : spec_float;
    averageWin : option spec_float;
    averageLoss : option spec_float;
    totalTrades : nat }.
End TrackRecordMetrics.

Definition calculatePnl (trade : Trade.t) : spec_float :=
  let sign := match Trade.outcome trade with win => ofZ 1 | loss => ofZ (-1) end in
  mul (Trade.amount trade) sign.

(** [arr.reduce((a, b) => a + b, 0)] *)
Definition sum (arr : list spec_float) : spec_float := fold_left add arr zero.

Definition tradeEntry (trade : Trade.t) : Entry.t :=
  {| Entry.date := Trade.date trade; Entry.delta := calculatePnl trade |}.

Definition depositEntry (deposit : CashMove.t) : Entry.t :=
  {| Entry.date := CashMove.date deposit;
     Entry.delta := CashMove.amount deposit |}.

(** The final [entries.map] with its captured accumulator [equity]. *)
Fixpoint accumulate (equity : spec_float) (entries : list Entry.t)
  : list EquityPoint.t :=
  match entries with
  | [] => []
  | entry :: rest =>
      let equity' := add equity (Entry.delta entry) in
      {| EquityPoint.date := Entry.date entry;
         EquityPoint.value := equity';
         EquityPoint.pnl := Entry.delta entry |} :: accumulate equity' rest
  end.

(** The [forEach] of [calculateMetrics]: one step on the pair
    [(peak, maxDrawdown)]. *)
Definition drawdownStep (st : spec_float * spec_float) (point : EquityPoint.t)
  : spec_float * spec_float :=
  let peak := Math_max (fst st) (EquityPoint.value point) in
  (peak, Math_max (snd st) (sub peak (EquityPoint.value point))).

Definition drawdownWalk (equityPoints : list EquityPoint.t)
  : spec_float * spec_float :=
  fold_left drawdownStep equityPoints (zero, zero).

(** The two partitions of [calculateMetrics]. *)
Definition winnersOf (trades : list Trade.t) : list spec_float :=
  List.filter (fun p => SFltb zero p) (map calculatePnl trades).

Definition losersOf (trades : list Trade.t) : list spec_float :=
  List.filter (fun p => SFltb p zero) (map calculatePnl trades).

Section Engine.

Variable getTime : string -> option Z.

(** [entries.sort((a, b) => parseISO(a.date).getTime() -
    parseISO(b.date).getTime())] *)
Definition entriesOf (trades : list Trade.t) (deposits : list CashMove.t)
  : list Entry.t :=
  sortWith (fun a b => timeDiff getTime (Entry.date a) (Entry.date b))
    (map tradeEntry trades ++ map depositEntry deposits).

Definition buildEquityCurve (trades : list Trade.t)
    (deposits : list CashMove.t) : list EquityPoint.t :=
  accumulate zero (entriesOf trades deposits).

Definition calculateMetrics (trades : list Trade.t) : TrackRecordMetrics.t :=
  match trades with
  | [] =>
      {| TrackRecordMetrics.netPnl := zero;
         TrackRecordMetrics.winRate := zero;
         TrackRecordMetrics.profitFactor := None;
         TrackRecordMetrics.riskReward := None;
         TrackRecordMetrics.maxDrawdown := zero;
         TrackRecordMetrics.averageWin := None;
         TrackRecordMetrics.averageLoss := None;
         TrackRecordMetrics.totalTrades := 0 |}
  | _ :: _ =>
      let pnls := map calculatePnl trades in
      let winners := List.filter (fun p => SFltb zero p) pnls in
      let losers := List.filter (fun p => SFltb p zero) pnls in
      let averageWin :=
        match winners with
        | [] => None
        | _ => Some (div (sum winners) (ofLength winners))
        end in
      let averageLoss :=
        match losers with
        | [] => None
        | _ => Some (div (sum losers) (ofLength losers))
        end in
      let profitFactor :=
        match winners, losers with
        | _ :: _, _ :: _ => Some (div (sum winners) (Math_abs (sum losers)))
        | _, _ => None
        end in
      let riskReward :=
        match averageWin, averageLoss with
        | Some aw, Some al =>
            if negb (SFeqb al zero) then Some (div aw (Math_abs al)) else None
        | _, _ => None
        end in
      let equityPoints := buildEquityCurve trades [] in
      let maxDrawdown := snd (drawdownWalk equityPoints) in
      {| TrackRecordMetrics.netPnl := sum pnls;
         TrackRecordMetrics.winRate :=
           mul (div (ofLength winners) (ofLength trades)) (ofZ 100);
         TrackRecordMetrics.profitFactor := profitFactor;
         TrackRecordMetrics.riskReward := riskReward;
         TrackRecordMetrics.maxDrawdown := maxDrawdown;
         TrackRecordMetrics.averageWin := averageWin;
         TrackRecordMetrics.averageLoss := averageLoss;
         TrackRecordMetrics.totalTrades := length trades |}
  end.

End Engine.

(** ** The object of [aggregateDailyPnl]

    A property read [acc[key]] finds the object's own property or, failing
    that, the property of that name on [Object.prototype]; adding a number
    to a string or to such an inherited function or object concatenates
    strings; and an assignment to [__proto__] with a value that is not an
    object does nothing. *)

Inductive jsvalue :=
| JNumber (x : spec_float)
| JString (s : string)
| JInherited (name : string).

(** The property names of [Object.prototype]. *)
Definition objectPrototypeKeys : list string :=
  [ "constructor"; "__defineGetter__"; "__defineSetter__"; "hasOwnProperty";
    "__lookupGetter__"; "__lookupSetter__"; "isPrototypeOf";
    "propertyIsEnumerable"; "toString"; "valueOf"; "__proto__";
    "toLocaleString" ].

Definition inherited (key : string) : bool :=
  existsb (String.eqb key) objectPrototypeKeys.

Section Aggregate.

(** The string of a number, and the string of the value that
    [Object.prototype] holds under a name. *)
Variable numberToString : spec_float -> string.
Variable inheritedToString : string -> string.

(** [acc[key]]; [None] is [undefined]. *)
Definition getProperty (acc : gmap string jsvalue) (key : string)
  : option jsvalue :=
  match acc !! key with
  | Some v => Some v
  | None => if inherited key then Some (JInherited key) else None
  end.

(** [acc[key] = v] for a number or a string [v]. *)
Definition setProperty (acc : gmap string jsvalue) (key : string)
    (v : jsvalue) : gmap string jsvalue :=
  if String.eqb key "__proto__" then acc else <[key := v]> acc.

(** [a + pnl] *)
Definition plus (a : jsvalue) (pnl : spec_float) : jsvalue :=
  match a with
  | JNumber x => JNumber (add x pnl)
  | JString s => JString (s ++ numberToString pnl)
  | JInherited name => JString (inheritedToString name ++ numberToString pnl)
  end.

(** One step of the reduction:
    [acc[dayKey] = (acc[dayKey] ?? 0) + pnl]. *)
Definition aggregateStep (acc : gmap string jsvalue) (trade : Trade.t)
  : gmap string jsvalue :=
  let dayKey := Trade.date trade in
  let pnl := calculatePnl trade in
  setProperty acc dayKey
    (plus (default (JNumber zero) (getProperty acc dayKey)) pnl).

Definition aggregateDailyPnl (trades : list Trade.t) : gmap string jsvalue :=
  fold_left aggregateStep trades ∅.

End Aggregate.

(** The trades of one date string. *)
Definition tradesOn (day : string) (trades : list Trade.t) : list Trade.t :=
  List.filter (fun trade => String.eqb (Trade.date trade) day) trades.

(** Each value is at least the value before it. *)
Fixpoint nonDecreasing (values : list spec_float) : bool :=
  match values with
  | a :: (b :: _) as rest => SFleb a b && nonDecreasing rest
  | _ => true
  end.

(** A trade and a deposit as the entry forms store them. *)
Definition mkTrade (date : string) (outcome : Outcome) (amount : spec_float)
  : Trade.t :=
  {| Trade.id := "t"; Trade.date := date; Trade.asset := "EURUSD";
     Trade.side := long; Trade.outcome := outcome; Trade.amount := amount;
     Trade.note := None |}.

Definition mkDeposit (date : string) (amount : spec_float) : CashMove.t :=
  {| CashMove.id := "d"; CashMove.date := date; CashMove.amount := amount;
     CashMove.note := None |}.

End B64.

(** * Properties *)

(** ** Sums *)

Lemma fold_left_Qplus_shift (l : list Q) (a : Q) :
  fold_left Qplus l a == a + fold_left Qplus l 0.
Proof.
  revert a; induction l as [|x l IH]; intros a; simpl.
  - lra.
  - rewrite IH, (IH (0 + x)). lra.
Qed.

Lemma sum_nil : sum [] = 0.
Proof. reflexivity. Qed.

Lemma sum_cons (x : Q) (l : list Q) : sum (x :: l) == x + sum l.
Proof. unfold sum; simpl. rewrite fold_left_Qplus_shift. lra. Qed.

Lemma sum_app (l l' : list Q) : sum (l ++ l') == sum l + sum l'.
Proof.
  induction l as [|x l IH]; simpl.
  - rewrite sum_nil. lra.
  - rewrite !sum_cons, IH. lra.
Qed.

(** ** The sort *)

Section SortFacts.

Variable getTime : string -> option Z.

Local Abbreviation isort := (sort getTime).
Local Abbreviation ins := (insert_sorted getTime).

Lemma insert_sorted_Permutation x l : Permutation (ins x l) (x :: l).
Proof.
  induction l as [|y l IH]; simpl; [reflexivity|].
  destruct (SortCompare getTime x y <=? 0)%Z; [reflexivity|].
  rewrite IH. apply perm_swap.
Qed.

Lemma sort_Permutation l : Permutation (isort l) l.
Proof.
  induction l as [|x l IH]; simpl; [reflexivity|].
  rewrite insert_sorted_Permutation. now constructor.
Qed.


End SortFacts.

(** ** The running total *)



(** ** [calculatePnl] *)

Lemma calculatePnl_zero trade :
  calculatePnl trade == 0 <-> Trade.amount trade == 0.
Proof. unfold calculatePnl. destruct (Trade.outcome trade); split; lra. Qed.

(** C2, as stated, fails: two winning trades that differ only in the sign of
    the stored amount have results of opposite signs, so the sign of the
    result is not fixed by the outcome alone. *)
Lemma calculatePnl_sign_follows_amount :
  Trade.outcome (mkTrade "2024-01-01" win 50) = win
  /\ Trade.outcome (mkTrade "2024-01-01" win (-50)) = win
  /\ 0 < calculatePnl (mkTrade "2024-01-01" win 50)
  /\ calculatePnl (mkTrade "2024-01-01" win (-50)) < 0.
Proof. repeat split. Qed.

(** C2, amended. [calculatePnl] returns the amount of a winning trade and the
    negation of the amount of a losing trade; when the stored amount is
    non-negative, the result is non-negative for a win and non-positive for
    a loss. *)
Theorem calculatePnl_by_outcome (trade : Trade.t) :
  match Trade.outcome trade with
  | win => calculatePnl trade == Trade.amount trade
  | loss => calculatePnl trade == - Trade.amount trade
  end
  /\ (0 <= Trade.amount trade ->
      match Trade.outcome trade with
      | win => 0 <= calculatePnl trade
      | loss => calculatePnl trade <= 0
      end).
Proof.
  unfold calculatePnl. destruct (Trade.outcome trade); split; intros; lra.
Qed.

Lemma calculatePnl_by_outcome_witness :
  0 <= Trade.amount (mkTrade "2024-01-02" loss 100)
  /\ calculatePnl (mkTrade "2024-01-02" loss 100) <= 0.
Proof.
  split.
  - simpl. lra.
  - apply (proj2 (calculatePnl_by_outcome (mkTrade "2024-01-02" loss 100))).
    simpl. lra.
Defined.

(** ** The empty trade list *)

(** C7. On the empty list [calculateMetrics] returns the fixed record of
    zeros and nulls; it is the first case of the function, so no division
    takes place. *)
Theorem calculateMetrics_empty (getTime : string -> option Z) :
  calculateMetrics getTime []
  = {| TrackRecordMetrics.netPnl := 0;
       TrackRecordMetrics.winRate := Fin 0;
       TrackRecordMetrics.profitFactor := None;
       TrackRecordMetrics.riskReward := None;
       TrackRecordMetrics.maxDrawdown := 0;
       TrackRecordMetrics.averageWin := None;
       TrackRecordMetrics.averageLoss := None;
       TrackRecordMetrics.totalTrades := 0 |}.
Proof. reflexivity. Qed.

(** ** Order of the curve *)

Section Ordering.

Variable getTime : string -> option Z.

Local Abbreviation isort := (sort getTime).
Local Abbreviation ins := (insert_sorted getTime).
Local Abbreviation valid := (fun e : Entry.t => is_Some (getTime (Entry.date e))).
Local Abbreviation entryLe :=
  (fun a b : Entry.t => timeLe getTime (Entry.date a) (Entry.date b)).

Lemma SortCompare_le x y :
  valid x -> valid y -> (SortCompare getTime x y <= 0)%Z -> entryLe x y.
Proof.
  unfold SortCompare, comparefn, timeLe. intros [a ->] [b ->]. lia.
Qed.

Lemma SortCompare_gt x y :
  (0 < SortCompare getTime x y)%Z -> entryLe y x.
Proof.
  unfold SortCompare, comparefn, timeLe.
  destruct (getTime (Entry.date x)), (getTime (Entry.date y)); lia.
Qed.

Lemma entryLe_trans x y z : entryLe x y -> entryLe y z -> entryLe x z.
Proof.
  unfold timeLe.
  destruct (getTime (Entry.date x)), (getTime (Entry.date y)),
    (getTime (Entry.date z)); try tauto; lia.
Qed.

Lemma insert_sorted_StronglySorted x l :
  valid x -> Forall valid l ->
  StronglySorted entryLe l -> StronglySorted entryLe (ins x l).
Proof.
  intros Hx Hl Hs. induction Hs as [|y l Hs IH Hy]; simpl.
  - repeat constructor.
  - apply Forall_cons_1 in Hl as [Hvy Hl].
    destruct (Z.leb_spec (SortCompare getTime x y) 0) as [Hc|Hc].
    + pose proof (SortCompare_le x y Hx Hvy Hc) as Hxy.
      constructor; [now constructor|].
      constructor; [exact Hxy|].
      eapply Forall_impl; [exact Hy|].
      intros z Hyz. simpl in Hyz. exact (entryLe_trans x y z Hxy Hyz).
    + constructor; [now apply IH|].
      rewrite (insert_sorted_Permutation getTime x l).
      constructor; [now apply SortCompare_gt | exact Hy].
Qed.

Lemma sort_StronglySorted l :
  Forall valid l -> StronglySorted entryLe (isort l).
Proof.
  induction 1 as [|x l Hx Hl IH]; simpl; [constructor|].
  apply insert_sorted_StronglySorted; [exact Hx| |exact IH].
  now rewrite (sort_Permutation getTime l).
Qed.

(** Stability: the entries of any one time keep their order. *)
Lemma insert_sorted_filter t x l :
  List.filter (atTime getTime t) (ins x l)
  = List.filter (atTime getTime t) (x :: l).
Proof.
  induction l as [|y l IH]; [reflexivity|].
  cbn [insert_sorted].
  destruct (Z.leb_spec (SortCompare getTime x y) 0) as [Hc|Hc]; [reflexivity|].
  cbn [List.filter] in *. rewrite IH.
  unfold SortCompare, comparefn in Hc. unfold atTime.
  destruct (getTime (Entry.date x)) as [a|], (getTime (Entry.date y)) as [b|];
    try lia.
  destruct (Z.eqb_spec a t), (Z.eqb_spec b t); try reflexivity; lia.
Qed.

Lemma sort_filter t l :
  List.filter (atTime getTime t) (isort l) = List.filter (atTime getTime t) l.
Proof.
  induction l as [|x l IH]; [reflexivity|].
  cbn [sort]. rewrite insert_sorted_filter. cbn [List.filter].
  now rewrite IH.
Qed.

Lemma accumulate_entries entries equity :
  map pointEntry (accumulate equity entries) = entries.
Proof.
  revert equity; induction entries as [|[d x] l IH]; intros equity; simpl;
    [reflexivity|].
  now rewrite IH.
Qed.

Lemma accumulate_dates entries equity :
  map EquityPoint.date (accumulate equity entries) = map Entry.date entries.
Proof.
  revert equity; induction entries as [|e l IH]; intros equity; simpl;
    [reflexivity|].
  now rewrite IH.
Qed.

Lemma StronglySorted_map_date l :
  StronglySorted entryLe l ->
  StronglySorted (timeLe getTime) (map Entry.date l).
Proof.
  induction 1 as [|x l Hs IH Hx]; simpl; constructor; [exact IH|].
  apply Forall_map. exact Hx.
Qed.

End Ordering.

(** C3. When every date parses, the dates of the points of the curve are in
    ascending order of their parsed time, and the events of one and the same
    time keep the order of the concatenation: they are the trades of that
    time in the order of the trade list, followed by the deposits of that
    time in the order of the deposit list. *)
Theorem buildEquityCurve_sorted_stable (getTime : string -> option Z)
    (trades : list Trade.t) (deposits : list CashMove.t) :
  Forall (fun trade => is_Some (getTime (Trade.date trade))) trades ->
  Forall (fun deposit => is_Some (getTime (CashMove.date deposit))) deposits ->
  StronglySorted (timeLe getTime)
    (map EquityPoint.date (buildEquityCurve getTime trades deposits))
  /\ forall t : Z,
       List.filter (atTime getTime t)
         (map pointEntry (buildEquityCurve getTime trades deposits))
       = List.filter (atTime getTime t) (map tradeEntry trades)
         ++ List.filter (atTime getTime t) (map depositEntry deposits).
Proof.
  intros Ht Hd. unfold buildEquityCurve. split.
  - rewrite accumulate_dates. apply StronglySorted_map_date.
    apply sort_StronglySorted. apply Forall_app. split.
    + apply Forall_map. exact Ht.
    + apply Forall_map. exact Hd.
  - intros t. rewrite accumulate_entries. unfold entriesOf.
    rewrite sort_filter. apply List.filter_app.
Qed.

Lemma buildEquityCurve_sorted_stable_witness :
  let trades := [mkTrade "2024-01-02" loss 300; mkTrade "2024-01-01" win 200] in
  let deposits := [mkDeposit "2024-01-01" 1000] in
  Forall (fun trade => is_Some (isoTime (Trade.date trade))) trades
  /\ Forall (fun deposit => is_Some (isoTime (CashMove.date deposit))) deposits
  /\ StronglySorted (timeLe isoTime)
       (map EquityPoint.date (buildEquityCurve isoTime trades deposits)).
Proof.
  cbn zeta.
  assert (H1 : Forall (fun trade => is_Some (isoTime (Trade.date trade)))
                 [mkTrade "2024-01-02" loss 300; mkTrade "2024-01-01" win 200])
    by (repeat constructor; eexists; reflexivity).
  assert (H2 : Forall (fun deposit => is_Some (isoTime (CashMove.date deposit)))
                 [mkDeposit "2024-01-01" 1000])
    by (repeat constructor; eexists; reflexivity).
  split; [exact H1|]. split; [exact H2|].
  exact (proj1 (buildEquityCurve_sorted_stable isoTime _ _ H1 H2)).
Defined.

(** ** Drawdown *)





Lemma maxDrawdown_unfold getTime trade trades :
  TrackRecordMetrics.maxDrawdown (calculateMetrics getTime (trade :: trades))
  = snd (drawdownWalk (buildEquityCurve getTime (trade :: trades) [])).
Proof. reflexivity. Qed.


(** C5, as stated, fails: the curve of a single losing trade has one point,
    so it is non-decreasing, and its drawdown is the amount lost, not 0. *)
Lemma maxDrawdown_single_loss :
  nonDecreasing
    (map EquityPoint.value
       (buildEquityCurve isoTime [mkTrade "2024-01-02" loss 5] [])) = true
  /\ TrackRecordMetrics.maxDrawdown
       (calculateMetrics isoTime [mkTrade "2024-01-02" loss 5]) = 5
  /\ ~ TrackRecordMetrics.maxDrawdown
         (calculateMetrics isoTime [mkTrade "2024-01-02" loss 5]) == 0.
Proof. split; [reflexivity|]. split; [reflexivity|]. vm_compute. discriminate. Qed.

(** ** The summary statistics *)

Lemma Qltb_lt (x y : Q) : Qltb x y = true <-> x < y.
Proof.
  unfold Qltb. rewrite Qlt_alt. destruct (x ?= y); split; congruence.
Qed.

Lemma winnersOf_positive trades : Forall (fun p => 0 < p) (winnersOf trades).
Proof.
  unfold winnersOf. apply List.Forall_forall. intros p Hp.
  apply List.filter_In in Hp as [_ Hp]. now apply Qltb_lt.
Qed.

Lemma losersOf_negative trades : Forall (fun p => p < 0) (losersOf trades).
Proof.
  unfold losersOf. apply List.Forall_forall. intros p Hp.
  apply List.filter_In in Hp as [_ Hp]. now apply Qltb_lt.
Qed.

Lemma of_length_cons {A} (x : A) (l : list A) :
  of_length (x :: l) == 1 + of_length l.
Proof.
  unfold of_length. cbn [length]. rewrite Nat2Z.inj_succ.
  unfold Z.succ. rewrite inject_Z_plus. change (inject_Z 1) with 1. lra.
Qed.

Lemma of_length_nonneg {A} (l : list A) : 0 <= of_length l.
Proof.
  unfold of_length. change 0 with (inject_Z 0). rewrite <- Zle_Qle. lia.
Qed.

Lemma of_length_positive {A} (l : list A) : l <> [] -> 0 < of_length l.
Proof.
  destruct l as [|x l]; [congruence|]. intros _.
  rewrite of_length_cons. pose proof (of_length_nonneg l). lra.
Qed.

Lemma div_finite_nonzero (x y : Q) : ~ y == 0 -> div_finite x y = Fin (x / y).
Proof.
  intros Hy. unfold div_finite.
  destruct (Qeq_bool y 0) eqn:E; [|reflexivity].
  apply Qeq_bool_iff in E. contradiction.
Qed.

Lemma calculateMetrics_cons getTime trade rest :
  let trades := trade :: rest in
  calculateMetrics getTime trades
  = {| TrackRecordMetrics.netPnl := sum (map calculatePnl trades);
       TrackRecordMetrics.winRate :=
         num_mul (num_div (Fin (of_length (winnersOf trades)))
                    (Fin (of_length trades))) (Fin 100);
       TrackRecordMetrics.profitFactor :=
         match winnersOf trades, losersOf trades with
         | _ :: _, _ :: _ =>
             Some (num_div (Fin (sum (winnersOf trades)))
                     (Math_abs (Fin (sum (losersOf trades)))))
         | _, _ => None
         end;
       TrackRecordMetrics.riskReward :=
         match
           match winnersOf trades with
           | [] => None
           | _ => Some (num_div (Fin (sum (winnersOf trades)))
                          (Fin (of_length (winnersOf trades))))
           end,
           match losersOf trades with
           | [] => None
           | _ => Some (num_div (Fin (sum (losersOf trades)))
                          (Fin (of_length (losersOf trades))))
           end
         with
         | Some aw, Some al =>
             if num_nonzero al then Some (num_div aw (Math_abs al)) else None
         | _, _ => None
         end;
       TrackRecordMetrics.maxDrawdown :=
         snd (drawdownWalk (buildEquityCurve getTime trades []));
       TrackRecordMetrics.averageWin :=
         match winnersOf trades with
         | [] => None
         | _ => Some (num_div (Fin (sum (winnersOf trades)))
                        (Fin (of_length (winnersOf trades))))
         end;
       TrackRecordMetrics.averageLoss :=
         match losersOf trades with
         | [] => None
         | _ => Some (num_div (Fin (sum (losersOf trades)))
                        (Fin (of_length (losersOf trades))))
         end;
       TrackRecordMetrics.totalTrades := length trades |}.
Proof. reflexivity. Qed.

Lemma totalTrades_closed getTime trades :
  TrackRecordMetrics.totalTrades (calculateMetrics getTime trades)
  = length trades.
Proof. destruct trades; reflexivity. Qed.

Lemma winRate_closed getTime trades :
  trades <> [] ->
  TrackRecordMetrics.winRate (calculateMetrics getTime trades)
  = Fin (of_length (winnersOf trades) / of_length trades * 100).
Proof.
  intros Hne. destruct trades as [|trade rest]; [congruence|].
  rewrite calculateMetrics_cons. cbn [TrackRecordMetrics.winRate num_div].
  rewrite div_finite_nonzero; [reflexivity|].
  pose proof (of_length_positive (trade :: rest) Hne). lra.
Qed.

Lemma winnersOf_trades trades :
  winnersOf trades
  = map calculatePnl
      (List.filter (fun trade => Qltb 0 (calculatePnl trade)) trades).
Proof.
  unfold winnersOf. induction trades as [|t l IH]; [reflexivity|].
  cbn [map List.filter]. destruct (Qltb 0 (calculatePnl t)); cbn [map];
    now rewrite IH.
Qed.

Lemma winnersOf_length_le trades :
  (length (winnersOf trades) <= length trades)%nat.
Proof.
  unfold winnersOf.
  etransitivity; [apply List.filter_length_le | now rewrite length_map].
Qed.

Lemma of_length_le {A B} (l : list A) (l' : list B) :
  (length l <= length l')%nat -> of_length l <= of_length l'.
Proof. intros H. unfold of_length. rewrite <- Zle_Qle. lia. Qed.

Lemma ratio_bounds (a n : Q) :
  0 <= a -> a <= n -> 0 < n -> 0 <= a / n * 100 /\ a / n * 100 <= 100.
Proof.
  intros Ha Han Hn.
  assert (H0 : 0 <= a / n) by (apply Qle_shift_div_l; lra).
  assert (H1 : a / n <= 1) by (apply Qle_shift_div_r; lra).
  split; lra.
Qed.

Lemma ratio_antitone (a n : Q) :
  0 <= a -> 0 < n -> a / (1 + n) * 100 <= a / n * 100.
Proof.
  intros Ha Hn.
  assert (H0 : 0 <= a / n) by (apply Qle_shift_div_l; lra).
  assert (H1 : a / n * n == a) by (field; lra).
  assert (H2 : a / (1 + n) <= a / n) by (apply Qle_shift_div_r; nra).
  lra.
Qed.

Lemma zero_pnl_partitions trade trades :
  calculatePnl trade == 0 ->
  winnersOf (trade :: trades) = winnersOf trades
  /\ losersOf (trade :: trades) = losersOf trades.
Proof.
  intros Hz. unfold winnersOf, losersOf. cbn [map List.filter].
  destruct (Qltb 0 (calculatePnl trade)) eqn:E1.
  { apply Qltb_lt in E1. lra. }
  destruct (Qltb (calculatePnl trade) 0) eqn:E2.
  { apply Qltb_lt in E2. lra. }
  split; reflexivity.
Qed.

(** C9. For a non-empty list of trades, [winRate] is the number of trades
    with a result above 0 over the number of trades, times 100, and lies
    between 0 and 100; [totalTrades] is the length of the list.  A result of
    exactly 0 (which needs an amount of 0) is in neither partition: a trade
    with such a result leaves the winners and the losers as they are and
    counts in [totalTrades], so the rate does not go up. *)
Theorem calculateMetrics_winRate (getTime : string -> option Z)
    (trades : list Trade.t) :
  trades <> [] ->
  let m := calculateMetrics getTime trades in
  let wins := List.filter (fun trade => Qltb 0 (calculatePnl trade)) trades in
  TrackRecordMetrics.winRate m = Fin (of_length wins / of_length trades * 100)
  /\ 0 <= of_length wins / of_length trades * 100 <= 100
  /\ TrackRecordMetrics.totalTrades m = length trades
  /\ Forall (fun p => 0 < p) (winnersOf trades)
  /\ Forall (fun p => p < 0) (losersOf trades)
  /\ forall trade : Trade.t,
       calculatePnl trade == 0 ->
       Trade.amount trade == 0
       /\ winnersOf (trade :: trades) = winnersOf trades
       /\ losersOf (trade :: trades) = losersOf trades
       /\ TrackRecordMetrics.totalTrades
            (calculateMetrics getTime (trade :: trades))
          = S (length trades)
       /\ TrackRecordMetrics.winRate
            (calculateMetrics getTime (trade :: trades))
          = Fin (of_length wins / of_length (trade :: trades) * 100)
       /\ of_length wins / of_length (trade :: trades) * 100
          <= of_length wins / of_length trades * 100.
Proof.
  intros Hne m wins.
  assert (Hw : of_length (winnersOf trades) = of_length wins).
  { unfold of_length. now rewrite winnersOf_trades, length_map. }
  assert (Hle : of_length wins <= of_length trades).
  { rewrite <- Hw. apply of_length_le, winnersOf_length_le. }
  pose proof (of_length_nonneg wins) as Hw0.
  pose proof (of_length_positive trades Hne) as Hn.
  split; [|split; [|split; [|split; [|split]]]].
  - subst m. now rewrite winRate_closed, Hw.
  - now apply ratio_bounds.
  - apply totalTrades_closed.
  - apply winnersOf_positive.
  - apply losersOf_negative.
  - intros trade Hz.
    destruct (zero_pnl_partitions trade trades Hz) as [HW HL].
    split; [now apply calculatePnl_zero|].
    split; [exact HW|]. split; [exact HL|].
    split; [apply totalTrades_closed|]. split.
    + rewrite winRate_closed by congruence. now rewrite HW, Hw.
    + rewrite (of_length_cons trade trades). now apply ratio_antitone.
Qed.

Lemma calculateMetrics_winRate_witness :
  let trades := [mkTrade "2024-01-01" win 200; mkTrade "2024-01-02" loss 100] in
  trades <> []
  /\ TrackRecordMetrics.winRate (calculateMetrics isoTime trades)
     = Fin (of_length
              (List.filter (fun trade => Qltb 0 (calculatePnl trade)) trades)
            / of_length trades * 100).
Proof.
  cbn zeta.
  assert (H1 : [mkTrade "2024-01-01" win 200; mkTrade "2024-01-02" loss 100]
               <> []) by discriminate.
  split; [exact H1|].
  exact (proj1 (calculateMetrics_winRate isoTime _ H1)).
Defined.

(** ** Independence of the input order *)

Lemma Permutation_List_filter {A} (f : A -> bool) (l l' : list A) :
  Permutation l l' -> Permutation (List.filter f l) (List.filter f l').
Proof.
  induction 1 as [|x l l' _ IH|x y l|l l' l'' _ IH1 _ IH2]; cbn [List.filter].
  - constructor.
  - destruct (f x); [now constructor | exact IH].
  - destruct (f x), (f y); try reflexivity. apply perm_swap.
  - now transitivity (List.filter f l').
Qed.

Lemma winnersOf_Permutation trades trades' :
  Permutation trades trades' ->
  Permutation (winnersOf trades) (winnersOf trades').
Proof.
  intros H. apply Permutation_List_filter, Permutation_map, H.
Qed.

Lemma of_length_Permutation {A} (l l' : list A) :
  Permutation l l' -> of_length l = of_length l'.
Proof. intros H. unfold of_length. now rewrite (Permutation_length H). Qed.

(** ** The scenarios of the specification *)

Example scenario_two_trades :
  let m := calculateMetrics isoTime
             [mkTrade "2024-01-01" win 200; mkTrade "2024-01-02" loss 100] in
  TrackRecordMetrics.netPnl m == 100
  /\ num_eq (TrackRecordMetrics.winRate m) (Fin 50)
  /\ nullable_eq (TrackRecordMetrics.profitFactor m) (Some (Fin 2))
  /\ nullable_eq (TrackRecordMetrics.riskReward m) (Some (Fin 2))
  /\ nullable_eq (TrackRecordMetrics.averageWin m) (Some (Fin 200))
  /\ nullable_eq (TrackRecordMetrics.averageLoss m) (Some (Fin (-100)))
  /\ TrackRecordMetrics.maxDrawdown m == 100
  /\ map EquityPoint.value
       (buildEquityCurve isoTime
          [mkTrade "2024-01-01" win 200; mkTrade "2024-01-02" loss 100] [])
     = [200; 100].
Proof. vm_compute. repeat split. Qed.

Example scenario_all_wins :
  let m := calculateMetrics isoTime
             [mkTrade "2024-01-01" win 50; mkTrade "2024-01-01" win 50;
              mkTrade "2024-01-01" win 50] in
  TrackRecordMetrics.profitFactor m = None
  /\ TrackRecordMetrics.riskReward m = None
  /\ TrackRecordMetrics.averageLoss m = None
  /\ num_eq (TrackRecordMetrics.winRate m) (Fin 100).
Proof. vm_compute. repeat split. Qed.

(** Same-day events: the trades come before the deposit, each in the order
    of its list. *)
Example scenario_same_day :
  map pointEntry
    (buildEquityCurve isoTime
       [mkTrade "2024-01-02" win 10; mkTrade "2024-01-01" loss 20;
        mkTrade "2024-01-02" loss 30]
       [mkDeposit "2024-01-02" 1000; mkDeposit "2024-01-01" 500])
  = [ {| Entry.date := "2024-01-01"; Entry.delta := -20 |};
      {| Entry.date := "2024-01-01"; Entry.delta := 500 |};
      {| Entry.date := "2024-01-02"; Entry.delta := 10 |};
      {| Entry.date := "2024-01-02"; Entry.delta := -30 |};
      {| Entry.date := "2024-01-02"; Entry.delta := 1000 |} ].
Proof. reflexivity. Qed.

(** * Further properties of the engine *)

(** ** The points of the curve *)

Lemma accumulate_pnl entries equity :
  map EquityPoint.pnl (accumulate equity entries) = map Entry.delta entries.
Proof.
  revert equity; induction entries as [|e l IH]; intros equity; simpl;
    [reflexivity | now rewrite IH].
Qed.

Lemma accumulate_value entries equity i p :
  accumulate equity entries !! i = Some p ->
  EquityPoint.value p == equity + sum (map Entry.delta (take (S i) entries)).
Proof.
  revert equity i; induction entries as [|e l IH]; intros equity i H;
    [discriminate|].
  destruct i as [|i]; cbn in H.
  - injection H as <-. change (take 1 (e :: l)) with [e].
    cbn [map EquityPoint.value]. rewrite sum_cons, sum_nil. lra.
  - apply IH in H. rewrite H.
    change (take (S (S i)) (e :: l)) with (e :: take (S i) l).
    cbn [map]. rewrite (sum_cons (Entry.delta e)). lra.
Qed.

Lemma lookup_map {A B} (f : A -> B) (l : list A) (i : nat) :
  map f l !! i = option_map f (l !! i).
Proof.
  revert i; induction l as [|x l IH]; intros [|i]; try reflexivity.
  apply IH.
Qed.

(** X1. The value of a point of the curve is the sum of the [pnl] of the
    points up to and including it; so each value is the value before it plus
    the point's own [pnl]. *)
Theorem buildEquityCurve_running_total (getTime : string -> option Z)
    (trades : list Trade.t) (deposits : list CashMove.t) (i : nat)
    (p : EquityPoint.t) :
  buildEquityCurve getTime trades deposits !! i = Some p ->
  EquityPoint.value p
  == sum (map EquityPoint.pnl
            (take (S i) (buildEquityCurve getTime trades deposits)))
  /\ forall q : EquityPoint.t,
       buildEquityCurve getTime trades deposits !! S i = Some q ->
       EquityPoint.value q == EquityPoint.value p + EquityPoint.pnl q.
Proof.
  unfold buildEquityCurve. set (es := entriesOf getTime trades deposits).
  intros Hp. pose proof (accumulate_value es 0 i p Hp) as Hv.
  rewrite <- firstn_map, accumulate_pnl.
  split; [rewrite Hv, firstn_map; lra|].
  intros q Hq. pose proof (accumulate_value es 0 (S i) q Hq) as Hw.
  rewrite Hv, Hw.
  assert (Hd : es !! S i = Some (pointEntry q)).
  { rewrite <- (accumulate_entries es 0) at 1. now rewrite lookup_map, Hq. }
  rewrite (take_S_r es (S i) (pointEntry q) Hd), map_app, sum_app.
  cbn [map pointEntry Entry.delta]. rewrite sum_cons, sum_nil. lra.
Qed.

Lemma buildEquityCurve_running_total_witness :
  let curve :=
    buildEquityCurve isoTime
      [mkTrade "2024-01-01" win 200; mkTrade "2024-01-02" loss 100] [] in
  curve !! 1%nat
  = Some {| EquityPoint.date := "2024-01-02"; EquityPoint.value := 100;
            EquityPoint.pnl := -100 |}
  /\ 100 == sum (map EquityPoint.pnl (take 2 curve)).
Proof.
  cbn zeta.
  assert (H : buildEquityCurve isoTime
                [mkTrade "2024-01-01" win 200; mkTrade "2024-01-02" loss 100] []
              !! 1%nat
              = Some {| EquityPoint.date := "2024-01-02";
                        EquityPoint.value := 100; EquityPoint.pnl := -100 |})
    by reflexivity.
  split; [exact H|].
  exact (proj1 (buildEquityCurve_running_total isoTime _ _ _ _ H)).
Defined.

(** X2. The events of the curve (date and [pnl] of each point) are the events
    of the trades and of the deposits, each exactly once, whatever the
    dates. *)
Theorem buildEquityCurve_events (getTime : string -> option Z)
    (trades : list Trade.t) (deposits : list CashMove.t) :
  Permutation
    (map pointEntry (buildEquityCurve getTime trades deposits))
    (map tradeEntry trades ++ map depositEntry deposits).
Proof.
  unfold buildEquityCurve. rewrite accumulate_entries.
  apply sort_Permutation.
Qed.

(** ** Distinct dates make the curve independent of the input order *)

Section Canonical.

Variable getTime : string -> option Z.

Local Abbreviation key := (fun e : Entry.t => getTime (Entry.date e)).
Local Abbreviation valid := (fun e : Entry.t => is_Some (getTime (Entry.date e))).
Local Abbreviation entryLe :=
  (fun a b : Entry.t => timeLe getTime (Entry.date a) (Entry.date b)).

Lemma entryLe_antisym x y : entryLe x y -> entryLe y x -> key x = key y.
Proof.
  unfold timeLe. destruct (getTime (Entry.date x)), (getTime (Entry.date y));
    try tauto.
  intros. f_equal. lia.
Qed.

Lemma StronglySorted_unique (a b : list Entry.t) :
  StronglySorted entryLe a -> StronglySorted entryLe b ->
  Permutation a b -> List.NoDup (map key a) -> a = b.
Proof.
  intros Ha; revert b; induction Ha as [|x a' Ha' IH Hx]; intros b Hb Hp Hnd.
  - now apply Permutation_nil in Hp.
  - destruct Hb as [|y b' Hb' Hy].
    { apply Permutation_sym, Permutation_nil in Hp. discriminate. }
    cbn [map] in Hnd. apply List.NoDup_cons_iff in Hnd as [Hnin Hnd].
    assert (Hxy : x = y).
    { assert (Hxb : In x (y :: b'))
        by (apply (Permutation_in _ Hp); now left).
      assert (Hya : In y (x :: a'))
        by (apply (Permutation_in _ (Permutation_sym Hp)); now left).
      destruct Hxb as [->|Hxb]; [reflexivity|].
      destruct Hya as [->|Hya]; [reflexivity|].
      exfalso. apply Hnin.
      rewrite List.Forall_forall in Hx, Hy.
      rewrite (entryLe_antisym x y (Hx y Hya) (Hy x Hxb)).
      apply List.in_map_iff. now exists y. }
    subst y. f_equal. apply IH; [exact Hb' | | exact Hnd].
    now apply Permutation_cons_inv in Hp.
Qed.

Lemma sort_canonical (l l' : list Entry.t) :
  Permutation l l' -> Forall valid l -> List.NoDup (map key l) ->
  sort getTime l = sort getTime l'.
Proof.
  intros Hp Hv Hnd.
  assert (Hv' : Forall valid l') by now rewrite <- Hp.
  apply StronglySorted_unique.
  - now apply sort_StronglySorted.
  - now apply sort_StronglySorted.
  - now rewrite !sort_Permutation.
  - eapply Permutation_NoDup; [|exact Hnd].
    apply Permutation_map, Permutation_sym, sort_Permutation.
Qed.

Lemma buildEquityCurve_canonical trades trades' deposits deposits' :
  Permutation trades trades' -> Permutation deposits deposits' ->
  Forall (fun trade => is_Some (getTime (Trade.date trade))) trades ->
  Forall (fun deposit => is_Some (getTime (CashMove.date deposit))) deposits ->
  List.NoDup
    (map getTime (map Trade.date trades ++ map CashMove.date deposits)) ->
  buildEquityCurve getTime trades deposits
  = buildEquityCurve getTime trades' deposits'.
Proof.
  intros Ht Hd Hvt Hvd Hnd. unfold buildEquityCurve, entriesOf. f_equal.
  apply sort_canonical.
  - apply Permutation_app; now apply Permutation_map.
  - apply Forall_app. split; apply Forall_map; assumption.
  - rewrite map_app, !map_map in *. exact Hnd.
Qed.

End Canonical.

(** X8. When every date parses and no two events fall at the same time, the
    curve does not depend on the order in which the trades and the deposits
    are given. *)
Theorem buildEquityCurve_order_independent (getTime : string -> option Z)
    (trades trades' : list Trade.t) (deposits deposits' : list CashMove.t) :
  Permutation trades trades' -> Permutation deposits deposits' ->
  Forall (fun trade => is_Some (getTime (Trade.date trade))) trades ->
  Forall (fun deposit => is_Some (getTime (CashMove.date deposit))) deposits ->
  List.NoDup
    (map getTime (map Trade.date trades ++ map CashMove.date deposits)) ->
  buildEquityCurve getTime trades deposits
  = buildEquityCurve getTime trades' deposits'.
Proof. apply buildEquityCurve_canonical. Qed.

Lemma buildEquityCurve_order_independent_witness :
  let trades := [mkTrade "2024-01-03" loss 100; mkTrade "2024-01-01" win 200] in
  let trades' := [mkTrade "2024-01-01" win 200; mkTrade "2024-01-03" loss 100] in
  let deposits := [mkDeposit "2024-01-02" 1000] in
  Permutation trades trades'
  /\ buildEquityCurve isoTime trades deposits
     = buildEquityCurve isoTime trades' deposits.
Proof.
  cbn zeta.
  assert (H1 : Permutation
                 [mkTrade "2024-01-03" loss 100; mkTrade "2024-01-01" win 200]
                 [mkTrade "2024-01-01" win 200; mkTrade "2024-01-03" loss 100])
    by apply perm_swap.
  split; [exact H1|].
  apply (buildEquityCurve_order_independent isoTime _ _
           [mkDeposit "2024-01-02" 1000] [mkDeposit "2024-01-02" 1000] H1).
  - reflexivity.
  - repeat constructor; eexists; reflexivity.
  - repeat constructor; eexists; reflexivity.
  - vm_compute. repeat constructor; cbn; intuition discriminate.
Defined.

(** X9. When every trade date parses and no two trades fall at the same
    time, [maxDrawdown] does not depend on the order of the trade list.
    Trades of the same day are walked in list order, and there the order
    matters: a loss, a win and a loss of 10 give 10, two losses and then a
    win give 20. *)
Theorem calculateMetrics_maxDrawdown_order (getTime : string -> option Z)
    (trades trades' : list Trade.t) :
  (Permutation trades trades' ->
   Forall (fun trade => is_Some (getTime (Trade.date trade))) trades ->
   List.NoDup (map getTime (map Trade.date trades)) ->
   TrackRecordMetrics.maxDrawdown (calculateMetrics getTime trades)
   = TrackRecordMetrics.maxDrawdown (calculateMetrics getTime trades'))
  /\ TrackRecordMetrics.maxDrawdown
       (calculateMetrics isoTime
          [mkTrade "2024-01-01" loss 10; mkTrade "2024-01-01" win 10;
           mkTrade "2024-01-01" loss 10]) = 10
  /\ TrackRecordMetrics.maxDrawdown
       (calculateMetrics isoTime
          [mkTrade "2024-01-01" loss 10; mkTrade "2024-01-01" loss 10;
           mkTrade "2024-01-01" win 10]) = 20.
Proof.
  split; [|split; reflexivity].
  intros Hp Hv Hnd.
  destruct trades as [|t ts].
  { apply Permutation_nil in Hp. now subst trades'. }
  destruct trades' as [|t' ts'].
  { apply Permutation_sym, Permutation_nil in Hp. discriminate. }
  rewrite !maxDrawdown_unfold. f_equal. f_equal.
  apply buildEquityCurve_canonical;
    [exact Hp | reflexivity | exact Hv | constructor |].
  cbn [map]. now rewrite app_nil_r.
Qed.

Lemma calculateMetrics_maxDrawdown_order_witness :
  let trades := [mkTrade "2024-01-03" loss 100; mkTrade "2024-01-01" win 200] in
  let trades' := [mkTrade "2024-01-01" win 200; mkTrade "2024-01-03" loss 100] in
  Permutation trades trades'
  /\ TrackRecordMetrics.maxDrawdown (calculateMetrics isoTime trades)
     = TrackRecordMetrics.maxDrawdown (calculateMetrics isoTime trades').
Proof.
  cbn zeta.
  assert (H1 : Permutation
                 [mkTrade "2024-01-03" loss 100; mkTrade "2024-01-01" win 200]
                 [mkTrade "2024-01-01" win 200; mkTrade "2024-01-03" loss 100])
    by apply perm_swap.
  split; [exact H1|].
  apply (proj1 (calculateMetrics_maxDrawdown_order isoTime _ _) H1).
  - repeat constructor; eexists; reflexivity.
  - vm_compute. repeat constructor; cbn; intuition discriminate.
Defined.

(** * Properties of the page *)

(** ** Sorting with a comparator *)

Section SortWithFacts.

Context {A : Type} (comparefn : A -> A -> number).

Lemma insertWith_Permutation x l :
  Permutation (insertWith comparefn x l) (x :: l).
Proof.
  induction l as [|y l IH]; cbn [insertWith]; [reflexivity|].
  destruct (staysBefore (comparefn x y)); [reflexivity|].
  rewrite IH. apply perm_swap.
Qed.

Lemma sortWith_Permutation l : Permutation (sortWith comparefn l) l.
Proof.
  induction l as [|x l IH]; cbn [sortWith]; [reflexivity|].
  rewrite insertWith_Permutation. now constructor.
Qed.

Context (P : A -> Prop) (R : A -> A -> Prop).
Hypothesis R_before :
  forall x y, P x -> P y -> staysBefore (comparefn x y) = true -> R x y.
Hypothesis R_after :
  forall x y, P x -> P y -> staysBefore (comparefn x y) = false -> R y x.
Hypothesis R_trans : forall x y z, R x y -> R y z -> R x z.

Lemma insertWith_StronglySorted x l :
  P x -> Forall P l ->
  StronglySorted R l -> StronglySorted R (insertWith comparefn x l).
Proof.
  intros Hx Hl Hs. induction Hs as [|y l Hs IH Hy]; cbn [insertWith].
  - repeat constructor.
  - apply Forall_cons_1 in Hl as [Hpy Hl].
    destruct (staysBefore (comparefn x y)) eqn:E.
    + pose proof (R_before x y Hx Hpy E) as Hxy.
      constructor; [now constructor|].
      constructor; [exact Hxy|].
      eapply Forall_impl; [exact Hy|]. intros z Hyz. cbn in Hyz.
      exact (R_trans x y z Hxy Hyz).
    + constructor; [now apply IH|].
      rewrite insertWith_Permutation.
      constructor; [now apply R_after | exact Hy].
Qed.

Lemma sortWith_StronglySorted l :
  Forall P l -> StronglySorted R (sortWith comparefn l).
Proof.
  induction 1 as [|x l Hx Hl IH]; cbn [sortWith]; [constructor|].
  apply insertWith_StronglySorted; [exact Hx| |exact IH].
  now rewrite sortWith_Permutation.
Qed.

End SortWithFacts.

Lemma staysBefore_diff (x y : Q) : staysBefore (Fin (x - y)) = true <-> x <= y.
Proof. cbn [staysBefore]. rewrite Qle_bool_iff. split; lra. Qed.

Lemma staysBefore_neg_diff (x y : Q) :
  staysBefore (num_neg (Fin (x - y))) = true <-> y <= x.
Proof. cbn [staysBefore num_neg]. rewrite Qle_bool_iff. split; lra. Qed.

Lemma staysBefore_timeDiff getTime a b x y :
  getTime a = Some x -> getTime b = Some y ->
  (staysBefore (timeDiff getTime a b) = true <-> (x <= y)%Z)
  /\ (staysBefore (num_neg (timeDiff getTime a b)) = true <-> (y <= x)%Z).
Proof.
  intros Ha Hb. unfold timeDiff. rewrite Ha, Hb.
  cbn [staysBefore num_neg]. rewrite !Qle_bool_iff.
  change 0 with (inject_Z 0). rewrite <- inject_Z_opp, <- !Zle_Qle.
  split; split; lia.
Qed.

Lemma filter_all_true {A} (f : A -> bool) (l : list A) :
  (forall x, f x = true) -> List.filter f l = l.
Proof.
  intros H. induction l as [|x l IH]; [reflexivity|].
  cbn [List.filter]. now rewrite H, IH.
Qed.

(** ** The filtered list *)

(** X11. Whatever the sort key and direction, [filteredTrades] holds exactly
    the trades that pass the filter, each as often as in the input; with the
    default filters it holds every trade. *)
Theorem filteredTrades_Permutation (getTime : string -> option Z)
    (filters : Filters.t) (sortBy : SortKey) (sortDir : SortDir)
    (trades : list Trade.t) :
  Permutation (filteredTrades getTime filters sortBy sortDir trades)
    (List.filter (keepTrade getTime filters) trades)
  /\ Permutation (filteredTrades getTime defaultFilters sortBy sortDir trades)
       trades.
Proof.
  unfold filteredTrades. split.
  - apply sortWith_Permutation.
  - rewrite sortWith_Permutation.
    rewrite filter_all_true; [reflexivity|]. intros t. reflexivity.
Qed.

(** X12. The date range of the filter is inclusive at both ends, and it never
    removes a trade whose own date does not parse. *)
Theorem keepTrade_date_range (getTime : string -> option Z)
    (filters : Filters.t) (trade : Trade.t) :
  (getTime (Trade.date trade) = None ->
   keepTrade getTime filters trade
   = keepTrade getTime (withoutDates filters) trade)
  /\ forall t a b : Z,
       getTime (Trade.date trade) = Some t ->
       Filters.dateFrom filters <> "" ->
       Filters.dateTo filters <> "" ->
       getTime (Filters.dateFrom filters) = Some a ->
       getTime (Filters.dateTo filters) = Some b ->
       keepTrade getTime filters trade
       = (keepTrade getTime (withoutDates filters) trade
          && (a <=? t)%Z && (t <=? b)%Z).
Proof.
  unfold keepTrade, withoutDates, dateBefore.
  cbn [Filters.asset Filters.side Filters.outcome Filters.dateFrom
         Filters.dateTo].
  split.
  - intros ->.
    destruct (getTime (Filters.dateTo filters));
      rewrite ?andb_false_r; reflexivity.
  - intros t a b -> Hf Ht -> ->.
    apply String.eqb_neq in Hf. apply String.eqb_neq in Ht. rewrite Hf, Ht.
    cbn [negb andb String.eqb].
    destruct (negb (String.eqb (Filters.asset filters) "all")
              && negb (String.eqb (Trade.asset trade) (Filters.asset filters)));
      [reflexivity|].
    destruct (match Filters.side filters with
              | anySide => false
              | onlySide s => negb (Side_eqb (Trade.side trade) s)
              end); [reflexivity|].
    destruct (match Filters.outcome filters with
              | anyOutcome => false
              | onlyOutcome o => negb (Outcome_eqb (Trade.outcome trade) o)
              end); [reflexivity|].
    destruct (Z.ltb_spec t a), (Z.ltb_spec b t), (Z.leb_spec a t),
      (Z.leb_spec t b); try reflexivity; lia.
Qed.

Lemma keepTrade_date_range_witness :
  let filters :=
    {| Filters.asset := "all"; Filters.outcome := anyOutcome;
       Filters.side := anySide; Filters.dateFrom := "2024-01-02";
       Filters.dateTo := "2024-01-05" |} in
  isoTime (Trade.date (mkTrade "2024-01-02" win 10)) = Some 1704153600000%Z
  /\ keepTrade isoTime filters (mkTrade "2024-01-02" win 10)
     = (keepTrade isoTime (withoutDates filters) (mkTrade "2024-01-02" win 10)
        && (1704153600000 <=? 1704153600000)%Z
        && (1704153600000 <=? 1704412800000)%Z).
Proof.
  cbn zeta. split; [reflexivity|].
  apply (proj2 (keepTrade_date_range isoTime _ (mkTrade "2024-01-02" win 10))).
  - reflexivity.
  - discriminate.
  - discriminate.
  - reflexivity.
  - reflexivity.
Defined.

Lemma timeLe_trans getTime a b c :
  timeLe getTime a b -> timeLe getTime b c -> timeLe getTime a c.
Proof.
  unfold timeLe. destruct (getTime a), (getTime b), (getTime c);
    try tauto; lia.
Qed.

Lemma Forall_List_filter {A} (P : A -> Prop) (f : A -> bool) (l : list A) :
  Forall P l -> Forall P (List.filter f l).
Proof.
  induction 1 as [|x l Hx Hl IH]; cbn [List.filter]; [constructor|].
  destruct (f x); [now constructor | exact IH].
Qed.

(** X13. Sorted by result, [filteredTrades] is ascending or descending in
    [calculatePnl] as the direction says; sorted by date, when every trade
    date parses, it is ascending or descending in the parsed time. *)
Theorem filteredTrades_sorted (getTime : string -> option Z)
    (filters : Filters.t) (trades : list Trade.t) :
  StronglySorted (fun a b => calculatePnl a <= calculatePnl b)
    (filteredTrades getTime filters keyPnl asc trades)
  /\ StronglySorted (fun a b => calculatePnl b <= calculatePnl a)
       (filteredTrades getTime filters keyPnl desc trades)
  /\ (Forall (fun trade => is_Some (getTime (Trade.date trade))) trades ->
      StronglySorted
        (fun a b => timeLe getTime (Trade.date a) (Trade.date b))
        (filteredTrades getTime filters keyDate asc trades)
      /\ StronglySorted
           (fun a b => timeLe getTime (Trade.date b) (Trade.date a))
           (filteredTrades getTime filters keyDate desc trades)).
Proof.
  unfold filteredTrades. split; [|split].
  - apply (sortWith_StronglySorted _ (fun _ => True)).
    + intros x y _ _ H. now apply staysBefore_diff in H.
    + intros x y _ _ H. cbn in H.
      assert (~ calculatePnl x <= calculatePnl y)
        by (rewrite <- staysBefore_diff; cbn; congruence).
      lra.
    + intros x y z; cbn; lra.
    + apply List.Forall_forall. tauto.
  - apply (sortWith_StronglySorted _ (fun _ => True)).
    + intros x y _ _ H. cbn [tradeComparefn] in H.
      now apply staysBefore_neg_diff in H.
    + intros x y _ _ H. cbn [tradeComparefn] in H.
      assert (~ calculatePnl y <= calculatePnl x)
        by (rewrite <- staysBefore_neg_diff; congruence).
      lra.
    + intros x y z; cbn; lra.
    + apply List.Forall_forall. tauto.
  - intros Hv. split.
    + apply (sortWith_StronglySorted _
               (fun trade => is_Some (getTime (Trade.date trade)))).
      * intros x y [a Ha] [b Hb] H. cbn [tradeComparefn] in H.
        apply (staysBefore_timeDiff getTime _ _ a b Ha Hb) in H.
        unfold timeLe. now rewrite Ha, Hb.
      * intros x y [a Ha] [b Hb] H. cbn [tradeComparefn] in H.
        assert (~ (a <= b)%Z).
        { rewrite <- (proj1 (staysBefore_timeDiff getTime _ _ a b Ha Hb)).
          congruence. }
        unfold timeLe. rewrite Ha, Hb. lia.
      * intros x y z. apply timeLe_trans.
      * now apply Forall_List_filter.
    + apply (sortWith_StronglySorted _
               (fun trade => is_Some (getTime (Trade.date trade)))).
      * intros x y [a Ha] [b Hb] H. cbn [tradeComparefn] in H.
        apply (staysBefore_timeDiff getTime _ _ a b Ha Hb) in H.
        unfold timeLe. now rewrite Ha, Hb.
      * intros x y [a Ha] [b Hb] H. cbn [tradeComparefn] in H.
        assert (~ (b <= a)%Z).
        { rewrite <- (proj2 (staysBefore_timeDiff getTime _ _ a b Ha Hb)).
          congruence. }
        unfold timeLe. rewrite Ha, Hb. lia.
      * intros x y z H1 H2. exact (timeLe_trans getTime _ _ _ H2 H1).
      * now apply Forall_List_filter.
Qed.

Lemma filteredTrades_sorted_witness :
  let trades := [mkTrade "2024-01-03" loss 10; mkTrade "2024-01-01" win 10] in
  Forall (fun trade => is_Some (isoTime (Trade.date trade))) trades
  /\ StronglySorted
       (fun a b => timeLe isoTime (Trade.date a) (Trade.date b))
       (filteredTrades isoTime defaultFilters keyDate asc trades).
Proof.
  cbn zeta.
  assert (H : Forall (fun trade => is_Some (isoTime (Trade.date trade)))
                [mkTrade "2024-01-03" loss 10; mkTrade "2024-01-01" win 10])
    by (repeat constructor; eexists; reflexivity).
  split; [exact H|].
  exact (proj1 (proj2 (proj2
           (filteredTrades_sorted isoTime defaultFilters _)) H)).
Defined.

(** ** The trend *)

(** X15. [pnlTrend] never reads a missing point: below two points it is 0,
    and otherwise it is the value of the last point minus the value of the
    point three places before it, or of the first point when the curve has
    fewer than four. *)
Theorem pnlTrend_reads (curve : list EquityPoint.t) :
  match pnlTrend curve with
  | Some q =>
      if (length curve <? 2)%nat then q = 0
      else exists a b : EquityPoint.t,
             last curve = Some a
             /\ curve !! (length curve - 4)%nat = Some b
             /\ q = EquityPoint.value a - EquityPoint.value b
  | None => False
  end.
Proof.
  unfold pnlTrend. set (n := length curve).
  destruct (Z.leb_spec 2 (Z.of_nat n)) as [Hn|Hn];
    destruct (Nat.ltb_spec n 2) as [Hn'|Hn']; try lia; [|reflexivity].
  replace (Z.to_nat (Z.of_nat n - 1)) with (pred n) by lia.
  replace (Z.to_nat (Z.max 0 (Z.of_nat n - 4))) with (n - 4)%nat by lia.
  unfold n. rewrite <- last_lookup.
  destruct (last curve) as [a|] eqn:Ea.
  - assert (Hb : (length curve - 4 < length curve)%nat) by (fold n; lia).
    apply lookup_lt_is_Some in Hb as [b Hb]. fold n in Hb. fold n.
    rewrite Hb. now exists a, b.
  - apply last_None in Ea. subst curve. cbn in Hn'. lia.
Qed.

(** ** The weeks of the heatmap *)

Section Weeks.

Context {A : Type}.

Lemma lookup_snoc {B} (l : list B) (x : B) : (l ++ [x]) !! length l = Some x.
Proof. induction l as [|y l IH]; [reflexivity | exact IH]. Qed.

Lemma lookup_past {B} (l : list B) : l !! length l = None.
Proof. induction l as [|y l IH]; [reflexivity | exact IH]. Qed.

Lemma alter_snoc {B} (f : B -> B) (l : list B) (x : B) :
  alter f (length l) (l ++ [x]) = l ++ [f x].
Proof.
  induction l as [|y l IH]; [reflexivity|].
  cbn [length app]. change (alter f (S (length l)) (y :: l ++ [x]))
    with (y :: alter f (length l) (l ++ [x])).
  now rewrite IH.
Qed.

Lemma concat_full_length (full : list (list A)) :
  Forall (fun week => length week = 7%nat) full ->
  length (concat full) = (7 * length full)%nat.
Proof.
  induction 1 as [|w l Hw Hl IH]; [reflexivity|].
  cbn [concat length]. rewrite length_app, IH, Hw. lia.
Qed.

Lemma concat_shape_length (full : list (list A)) (w : list A) :
  Forall (fun week => length week = 7%nat) full ->
  length (concat (full ++ [w])) = (7 * length full + length w)%nat.
Proof.
  intros H. rewrite concat_app, length_app, (concat_full_length _ H).
  cbn [concat]. rewrite app_nil_r. reflexivity.
Qed.

Lemma pushDay_shape (chunks : list (list A)) (day : A) :
  weeksShape chunks ->
  exists chunks',
    pushDay (map Some chunks) day (length (concat chunks)) = map Some chunks'
    /\ weeksShape chunks'
    /\ concat chunks' = concat chunks ++ [day].
Proof.
  intros [->|(full & w & -> & Hfull & Hw)].
  - exists [[day]]. split; [reflexivity|]. split; [|reflexivity].
    right. exists [], [day]. repeat split; [constructor | cbn; lia..].
  - rewrite (concat_shape_length full w Hfull). unfold pushDay.
    destruct (Nat.eq_dec (length w) 7%nat) as [E|E].
    + assert (Hq : ((7 * length full + length w) / 7
                    = length (map Some (full ++ [w])))%nat).
      { rewrite length_map, length_app. cbn [length]. rewrite E.
        symmetry. apply (Nat.div_unique _ 7%nat _ 0%nat); lia. }
      rewrite Hq, lookup_past. unfold assignAt.
      rewrite (proj2 (Nat.ltb_ge _ _)) by lia.
      rewrite Nat.sub_diag. cbn [replicate app].
      rewrite alter_snoc.
      exists ((full ++ [w]) ++ [[day]]). split; [|split].
      * now rewrite (map_app _ (full ++ [w])).
      * right. exists (full ++ [w]), [day].
        split; [reflexivity|]. split; [|cbn; lia].
        apply Forall_app. split; [exact Hfull | now repeat constructor].
      * rewrite (concat_app (full ++ [w])). cbn [concat].
        now rewrite app_nil_r.
    + assert (Hq : ((7 * length full + length w) / 7
                    = length (map Some full))%nat).
      { rewrite length_map. symmetry.
        apply (Nat.div_unique _ 7%nat _ (length w)); lia. }
      rewrite Hq, map_app. cbn [map]. rewrite lookup_snoc, alter_snoc.
      exists (full ++ [w ++ [day]]). split; [|split].
      * rewrite map_app. reflexivity.
      * right. exists full, (w ++ [day]).
        split; [reflexivity|]. split; [exact Hfull|].
        rewrite length_app. cbn [length]. lia.
      * rewrite !concat_app. cbn [concat]. rewrite !app_nil_r.
        now rewrite app_assoc.
Qed.

Lemma forEachDay_shape (days : list A) (chunks : list (list A)) :
  weeksShape chunks ->
  exists chunks',
    forEachDay days (length (concat chunks)) (map Some chunks)
    = map Some chunks'
    /\ weeksShape chunks'
    /\ concat chunks' = concat chunks ++ days.
Proof.
  revert chunks; induction days as [|day rest IH]; intros chunks Hs.
  - exists chunks. split; [reflexivity|]. split; [exact Hs|].
    now rewrite app_nil_r.
  - cbn [forEachDay].
    destruct (pushDay_shape chunks day Hs) as (c1 & E1 & Hs1 & Hc1).
    rewrite E1.
    replace (S (length (concat chunks))) with (length (concat c1))
      by (rewrite Hc1, length_app; cbn [length]; lia).
    destruct (IH c1 Hs1) as (c2 & E2 & Hs2 & Hc2).
    exists c2. split; [exact E2|]. split; [exact Hs2|].
    rewrite Hc2, Hc1, <- app_assoc. reflexivity.
Qed.

End Weeks.

(** X16. The weeks built by the heatmap have no hole; joined in order they
    give back the days; every week but the last has exactly seven days and
    the last one has between one and seven. *)
Theorem heatmapWeeks_chunks {A : Type} (days : list A) :
  exists chunks : list (list A),
    heatmapWeeks days = map Some chunks
    /\ concat chunks = days
    /\ (chunks = []
        \/ exists full w,
             chunks = full ++ [w]
             /\ Forall (fun week => length week = 7%nat) full
             /\ (1 <= length w <= 7)%nat).
Proof.
  destruct (forEachDay_shape days [] (or_introl eq_refl))
    as (chunks & E & Hs & Hc).
  exists chunks. split; [exact E|]. split; [exact Hc | exact Hs].
Qed.

(** ** The colours of the heatmap *)

Lemma maxAbs_bounds (dailyPnls : gmap string Q) :
  0 <= maxAbs dailyPnls
  /\ forall day v, dailyPnls !! day = Some v -> Qabs v <= maxAbs dailyPnls.
Proof.
  unfold maxAbs.
  apply (map_fold_weak_ind
           (fun r (m : gmap string Q) =>
              0 <= r /\ forall day v, m !! day = Some v -> Qabs v <= r)).
  - split; [lra|]. intros day v H. rewrite lookup_empty in H. discriminate.
  - intros i x m r Hi [H0 Hall]. split.
    + pose proof (Q.le_max_l r (Qabs x)). lra.
    + intros day v H. destruct (decide (i = day)) as [->|Hne].
      * rewrite lookup_insert_eq in H. injection H as ->.
        apply Q.le_max_r.
      * rewrite lookup_insert_ne in H by exact Hne.
        pose proof (Hall day v H). pose proof (Q.le_max_l r (Qabs x)). lra.
Qed.

Lemma Qabs_positive (v : Q) : ~ v == 0 -> 0 < Qabs v.
Proof.
  intros Hv. destruct (Qlt_le_dec v 0) as [H|H].
  - rewrite Qabs_neg by lra. lra.
  - rewrite Qabs_pos by lra. lra.
Qed.

(** X17. For a day of a mapping of finite numbers with a non-zero value [v],
    the cell is green for a gain and red for a loss, and its alpha is
    [0.18 + |v| / maxAbs * 0.6]: the divisor is not zero, the intensity is
    never clipped and the fallback 0.2 is never used, so the alpha lies
    between 0.18 and 0.78. *)
Theorem colorFor_alpha (dailyPnls : gmap string Q) (day : string) (v : Q) :
  dailyPnls !! day = Some v -> ~ v == 0 ->
  0 < maxAbs dailyPnls
  /\ exists alpha : Q,
       colorFor (maxAbs dailyPnls) (dailyPnls !! day)
       = (if Qltb 0 v then Rgba 82 227 173 alpha else Rgba 248 113 113 alpha)
       /\ alpha == (18 # 100) + Qabs v / maxAbs dailyPnls * (6 # 10)
       /\ 18 # 100 <= alpha /\ alpha <= 78 # 100.
Proof.
  intros Hd Hv.
  destruct (maxAbs_bounds dailyPnls) as [_ Hall].
  pose proof (Hall day v Hd) as Hle. pose proof (Qabs_positive v Hv) as Hpos.
  assert (Hm : 0 < maxAbs dailyPnls) by lra.
  split; [exact Hm|].
  assert (Hr0 : 0 < Qabs v / maxAbs dailyPnls)
    by (apply Qlt_shift_div_l; lra).
  assert (Hr1 : Qabs v / maxAbs dailyPnls <= 1)
    by (apply Qle_shift_div_r; lra).
  assert (Hmin : Qmin 1 (Qabs v / maxAbs dailyPnls)
                 == Qabs v / maxAbs dailyPnls) by (apply Q.min_r; exact Hr1).
  exists ((18 # 100) + Qmin 1 (Qabs v / maxAbs dailyPnls) * (6 # 10)).
  split; [|split; [|split]].
  - rewrite Hd. unfold colorFor.
    destruct (Qeq_bool v 0) eqn:E; [apply Qeq_bool_iff in E; contradiction|].
    destruct (Qeq_bool (maxAbs dailyPnls) 0) eqn:E';
      [apply Qeq_bool_iff in E'; lra|].
    reflexivity.
  - rewrite Hmin. reflexivity.
  - rewrite Hmin. lra.
  - rewrite Hmin. lra.
Qed.

Lemma colorFor_alpha_witness :
  let dailyPnls : gmap string Q :=
    {[ "2024-01-01" := 200; "2024-01-02" := -100 ]} in
  dailyPnls !! "2024-01-02" = Some (-100) /\ 0 < maxAbs dailyPnls.
Proof.
  cbn zeta.
  assert (H : ({[ "2024-01-01" := 200; "2024-01-02" := -100 ]}
               : gmap string Q) !! "2024-01-02" = Some (-100))
    by (vm_compute; reflexivity).
  split; [exact H|].
  apply (proj1 (colorFor_alpha _ "2024-01-02" (-100) H
                  ltac:(intros E; discriminate E))).
Defined.

(** ** The stored state *)

Lemma filter_id_fresh {A} (ident : A -> string) (id : string) (l : list A) :
  Forall (fun x => ident x <> id) l ->
  List.filter (fun x => negb (String.eqb (ident x) id)) l = l.
Proof.
  induction 1 as [|x l Hx Hl IH]; [reflexivity|].
  cbn [List.filter]. apply String.eqb_neq in Hx. now rewrite Hx, IH.
Qed.

Lemma filter_id_gone {A} (ident : A -> string) (id : string) (l : list A) :
  Forall (fun x => ident x <> id)
    (List.filter (fun x => negb (String.eqb (ident x) id)) l).
Proof.
  apply List.Forall_forall. intros x Hx.
  apply List.filter_In in Hx as [_ Hx].
  apply negb_true_iff in Hx. now apply String.eqb_neq.
Qed.

(** X18. Removing a trade by id leaves no trade with that id and does not
    touch the deposits, whether the stored value was a state or a bare array
    of trades; adding a trade whose id is not yet used and removing it again
    gives back the state as it was. *)
Theorem removeTrade_addTrade (data : Trade.t) (id : string) (prev : RawState) :
  Forall (fun t => Trade.id t <> id)
    (AppState.trades (currentState (removeTrade id prev)))
  /\ AppState.deposits (currentState (removeTrade id prev))
     = AppState.deposits (currentState prev)
  /\ (Forall (fun t => Trade.id t <> Trade.id data)
        (AppState.trades (currentState prev)) ->
      currentState (removeTrade (Trade.id data) (addTrade data prev))
      = currentState prev).
Proof.
  split; [|split].
  - cbn. apply filter_id_gone.
  - reflexivity.
  - intros Hfresh. unfold removeTrade, addTrade.
    cbn [currentState AppState.trades AppState.deposits].
    rewrite List.filter_app, (filter_id_fresh Trade.id _ _ Hfresh).
    cbn [List.filter]. rewrite String.eqb_refl. cbn [negb].
    rewrite app_nil_r. now destruct (currentState prev).
Qed.

Lemma removeTrade_addTrade_witness :
  let prev := bareTrades [mkTrade "2024-01-01" win 200] in
  let data :=
    {| Trade.id := "t2"; Trade.date := "2024-01-02"; Trade.asset := "EURUSD";
       Trade.side := long; Trade.outcome := loss; Trade.amount := 100;
       Trade.note := None |} in
  Forall (fun t => Trade.id t <> Trade.id data)
    (AppState.trades (currentState prev))
  /\ currentState (removeTrade (Trade.id data) (addTrade data prev))
     = currentState prev.
Proof.
  cbn zeta.
  assert (H : Forall (fun t => Trade.id t <> "t2")
                (AppState.trades
                   (currentState (bareTrades [mkTrade "2024-01-01" win 200]))))
    by (repeat constructor; discriminate).
  split; [exact H|].
  exact (proj2 (proj2 (removeTrade_addTrade
                         {| Trade.id := "t2"; Trade.date := "2024-01-02";
                            Trade.asset := "EURUSD"; Trade.side := long;
                            Trade.outcome := loss; Trade.amount := 100;
                            Trade.note := None |} "t2" _)) H).
Defined.

(** X19. The same for deposits: removing by id leaves no deposit with that id
    and does not touch the trades; adding a deposit with an unused id and
    removing it again gives back the state as it was. *)
Theorem removeDeposit_addDeposit (data : CashMove.t) (id : string)
    (prev : RawState) :
  Forall (fun d => CashMove.id d <> id)
    (AppState.deposits (currentState (removeDeposit id prev)))
  /\ AppState.trades (currentState (removeDeposit id prev))
     = AppState.trades (currentState prev)
  /\ (Forall (fun d => CashMove.id d <> CashMove.id data)
        (AppState.deposits (currentState prev)) ->
      currentState (removeDeposit (CashMove.id data) (addDeposit data prev))
      = currentState prev).
Proof.
  split; [|split].
  - cbn. apply filter_id_gone.
  - reflexivity.
  - intros Hfresh. unfold removeDeposit, addDeposit.
    cbn [currentState AppState.trades AppState.deposits].
    rewrite List.filter_app, (filter_id_fresh CashMove.id _ _ Hfresh).
    cbn [List.filter]. rewrite String.eqb_refl. cbn [negb].
    rewrite app_nil_r. now destruct (currentState prev).
Qed.

Lemma removeDeposit_addDeposit_witness :
  let prev :=
    appState {| AppState.trades := [mkTrade "2024-01-01" win 200];
                AppState.deposits := [mkDeposit "2024-01-01" 1000] |} in
  let data :=
    {| CashMove.id := "d2"; CashMove.date := "2024-01-02";
       CashMove.amount := 500; CashMove.note := None |} in
  Forall (fun d => CashMove.id d <> CashMove.id data)
    (AppState.deposits (currentState prev))
  /\ currentState (removeDeposit (CashMove.id data) (addDeposit data prev))
     = currentState prev.
Proof.
  cbn zeta.
  assert (H : Forall (fun d => CashMove.id d <> "d2")
                [mkDeposit "2024-01-01" 1000])
    by (repeat constructor; discriminate).
  split; [exact H|].
  exact (proj2 (proj2 (removeDeposit_addDeposit
                         {| CashMove.id := "d2"; CashMove.date := "2024-01-02";
                            CashMove.amount := 500; CashMove.note := None |}
                         "d2"
                         (appState
                            {| AppState.trades := [mkTrade "2024-01-01" win 200];
                               AppState.deposits :=
                                 [mkDeposit "2024-01-01" 1000] |}))) H).
Defined.

(** ** The recent deposits *)

Lemma StronglySorted_split {A} (R : A -> A -> Prop) (l1 l2 : list A) :
  StronglySorted R (l1 ++ l2) ->
  StronglySorted R l1
  /\ forall x y, In x l1 -> In y l2 -> R x y.
Proof.
  induction l1 as [|a l1 IH]; cbn [app]; intros H.
  - split; [constructor | intros x y []].
  - apply StronglySorted_inv in H as [Hs Ha]. destruct (IH Hs) as [Hs1 Hc].
    split.
    + constructor; [exact Hs1|].
      apply Forall_app in Ha as [Ha _]. exact Ha.
    + intros x y [->|Hx] Hy.
      * rewrite List.Forall_forall in Ha. apply Ha.
        apply List.in_or_app. now right.
      * now apply Hc.
Qed.

(** X20. The list of recent deposits has at most four entries, all of them
    deposits of the state.  When every deposit date parses, it runs from the
    latest date down, and no deposit left out is later than one shown. *)
Theorem recentDeposits_latest (getTime : string -> option Z)
    (deposits : list CashMove.t) :
  length (recentDeposits getTime deposits) = Nat.min 4 (length deposits)
  /\ exists older : list CashMove.t,
       Permutation deposits (recentDeposits getTime deposits ++ older)
       /\ (Forall (fun d => is_Some (getTime (CashMove.date d))) deposits ->
           StronglySorted
             (fun a b => timeLe getTime (CashMove.date b) (CashMove.date a))
             (recentDeposits getTime deposits)
           /\ forall shown left,
                In shown (recentDeposits getTime deposits) ->
                In left older ->
                timeLe getTime (CashMove.date left) (CashMove.date shown)).
Proof.
  unfold recentDeposits.
  set (cmp := fun a b : CashMove.t =>
                timeDiff getTime (CashMove.date b) (CashMove.date a)).
  set (sorted := sortWith cmp deposits).
  split.
  - rewrite length_take. unfold sorted.
    now rewrite (Permutation_length (sortWith_Permutation cmp deposits)).
  - exists (drop 4 sorted). split.
    + rewrite take_drop. symmetry. apply sortWith_Permutation.
    + intros Hv.
      assert (Hs : StronglySorted
                     (fun a b =>
                        timeLe getTime (CashMove.date b) (CashMove.date a))
                     sorted).
      { apply (sortWith_StronglySorted cmp
                 (fun d => is_Some (getTime (CashMove.date d)))).
        - intros x y [a Ha] [b Hb] H. unfold cmp in H.
          apply (staysBefore_timeDiff getTime _ _ b a Hb Ha) in H.
          unfold timeLe. now rewrite Ha, Hb.
        - intros x y [a Ha] [b Hb] H. unfold cmp in H.
          assert (~ (b <= a)%Z).
          { rewrite <- (proj1 (staysBefore_timeDiff getTime _ _ b a Hb Ha)).
            congruence. }
          unfold timeLe. rewrite Ha, Hb. lia.
        - intros x y z H1 H2. exact (timeLe_trans getTime _ _ _ H2 H1).
        - exact Hv. }
      rewrite <- (take_drop 4 sorted) in Hs.
      apply StronglySorted_split in Hs as [Hs1 Hc].
      split; [exact Hs1|]. intros shown left H1 H2. now apply Hc.
Qed.

Lemma recentDeposits_latest_witness :
  let deposits :=
    [mkDeposit "2024-01-03" 1; mkDeposit "2024-01-01" 1;
     mkDeposit "2024-01-05" 1; mkDeposit "2024-01-02" 1;
     mkDeposit "2024-01-04" 1] in
  Forall (fun d => is_Some (isoTime (CashMove.date d))) deposits
  /\ exists older : list CashMove.t,
       Permutation deposits (recentDeposits isoTime deposits ++ older)
       /\ StronglySorted
            (fun a b => timeLe isoTime (CashMove.date b) (CashMove.date a))
            (recentDeposits isoTime deposits).
Proof.
  cbn zeta.
  assert (H : Forall (fun d => is_Some (isoTime (CashMove.date d)))
                [mkDeposit "2024-01-03" 1; mkDeposit "2024-01-01" 1;
                 mkDeposit "2024-01-05" 1; mkDeposit "2024-01-02" 1;
                 mkDeposit "2024-01-04" 1])
    by (repeat constructor; eexists; reflexivity).
  split; [exact H|].
  destruct (proj2 (recentDeposits_latest isoTime
                     [mkDeposit "2024-01-03" 1; mkDeposit "2024-01-01" 1;
                      mkDeposit "2024-01-05" 1; mkDeposit "2024-01-02" 1;
                      mkDeposit "2024-01-04" 1])) as (older & Hp & Hs).
  exists older. split; [exact Hp | exact (proj1 (Hs H))].
Defined.

(** ** The outcome shares *)

Lemma outcome_counts (trades : list Trade.t) :
  (winCount trades + lossCount trades = length trades)%nat.
Proof.
  unfold winCount, lossCount. induction trades as [|t l IH]; [reflexivity|].
  cbn [List.filter]. destruct (Trade.outcome t); cbn [Outcome_eqb length]; lia.
Qed.

Lemma Math_round_percent (w n : nat) :
  (w <= n)%nat -> (0 < n)%nat ->
  (0 <= Math_round (inject_Z (Z.of_nat w) / inject_Z (Z.of_nat n) * 100)
   <= 100)%Z.
Proof.
  intros Hw Hn. unfold Math_round.
  assert (H0 : 0 <= inject_Z (Z.of_nat w))
    by (change 0 with (inject_Z 0); rewrite <- Zle_Qle; lia).
  assert (H1 : inject_Z (Z.of_nat w) <= inject_Z (Z.of_nat n))
    by (rewrite <- Zle_Qle; lia).
  assert (H2 : 0 < inject_Z (Z.of_nat n))
    by (change 0 with (inject_Z 0); rewrite <- Zlt_Qlt; lia).
  destruct (ratio_bounds _ _ H0 H1 H2) as [Ha Hb].
  set (x := inject_Z (Z.of_nat w) / inject_Z (Z.of_nat n) * 100) in *.
  assert (Hlo : (Qfloor (1 # 2) <= Qfloor (x + (1 # 2)))%Z)
    by (apply Qfloor_resp_le; lra).
  assert (Hhi : (Qfloor (x + (1 # 2)) <= Qfloor (100 + (1 # 2)))%Z)
    by (apply Qfloor_resp_le; lra).
  change (Qfloor (1 # 2)) with 0%Z in Hlo.
  change (Qfloor (100 + (1 # 2))) with 100%Z in Hhi.
  split; assumption.
Qed.

(** X21. Every trade counts as a win or as a loss, so [winCount] and
    [lossCount] add up to the number of trades.  [winShare] is a whole
    percentage between 0 and 100; for a non-empty list [winShare] and
    [lossShare] add up to 100, and both are 0 for the empty list. *)
Theorem winShare_lossShare (trades : list Trade.t) :
  (winCount trades + lossCount trades = length trades)%nat
  /\ (0 <= winShare trades <= 100)%Z
  /\ match trades with
     | [] => winShare trades = 0%Z /\ lossShare trades = 0%Z
     | _ :: _ => (winShare trades + lossShare trades = 100)%Z
     end.
Proof.
  pose proof (outcome_counts trades) as Hc.
  split; [exact Hc|]. split.
  - unfold winShare.
    destruct (winCount trades + lossCount trades)%nat as [|k] eqn:E; [lia|].
    apply Math_round_percent; lia.
  - destruct trades as [|t l]; [split; reflexivity|].
    unfold lossShare.
    destruct (winCount (t :: l) + lossCount (t :: l))%nat as [|k] eqn:E;
      [cbn [length] in Hc; lia | lia].
Qed.

Lemma winnersOf_winCount (trades : list Trade.t) :
  Forall (fun t => 0 < Trade.amount t) trades ->
  length (winnersOf trades) = winCount trades.
Proof.
  unfold winnersOf, winCount.
  induction 1 as [|t l Ht Hl IH]; [reflexivity|].
  cbn [map List.filter]. unfold calculatePnl at 1.
  destruct (Trade.outcome t); cbn [Outcome_eqb].
  - assert (E : Qltb 0 (Trade.amount t * 1) = true)
      by (apply Qltb_lt; lra).
    rewrite E. cbn [length]. now rewrite IH.
  - assert (E : Qltb 0 (Trade.amount t * -1) = false).
    { destruct (Qltb 0 (Trade.amount t * -1)) eqn:E'; [|reflexivity].
      apply Qltb_lt in E'. lra. }
    now rewrite E.
Qed.

(** X22. When every stored amount is above 0, the winners of
    [calculateMetrics] are the trades whose outcome is [win]: for a non-empty
    list [winShare] is [winRate] rounded.  A winning trade with amount 0
    breaks the agreement: it counts in [winShare] (100) but not in [winRate]
    (0). *)
Theorem winShare_winRate (getTime : string -> option Z)
    (trades : list Trade.t) :
  (Forall (fun t => 0 < Trade.amount t) trades -> trades <> [] ->
   exists q : Q,
     TrackRecordMetrics.winRate (calculateMetrics getTime trades) = Fin q
     /\ winShare trades = Math_round q)
  /\ winShare [mkTrade "2024-01-01" win 0] = 100%Z
  /\ num_eq
       (TrackRecordMetrics.winRate
          (calculateMetrics isoTime [mkTrade "2024-01-01" win 0]))
       (Fin 0).
Proof.
  split; [|split; [reflexivity | vm_compute; reflexivity]].
  intros Hpos Hne.
  exists (of_length (winnersOf trades) / of_length trades * 100).
  split; [now apply winRate_closed|].
  unfold winShare, of_length.
  rewrite (winnersOf_winCount trades Hpos), (outcome_counts trades).
  destruct trades as [|t l]; [congruence | reflexivity].
Qed.

Lemma winShare_winRate_witness :
  let trades := [mkTrade "2024-01-01" win 200; mkTrade "2024-01-02" loss 100] in
  Forall (fun t => 0 < Trade.amount t) trades
  /\ trades <> []
  /\ exists q : Q,
       TrackRecordMetrics.winRate (calculateMetrics isoTime trades) = Fin q
       /\ winShare trades = Math_round q.
Proof.
  cbn zeta.
  assert (H1 : Forall (fun t => 0 < Trade.amount t)
                 [mkTrade "2024-01-01" win 200; mkTrade "2024-01-02" loss 100])
    by (repeat constructor).
  assert (H2 : [mkTrade "2024-01-01" win 200; mkTrade "2024-01-02" loss 100]
               <> []) by discriminate.
  split; [exact H1|]. split; [exact H2|].
  exact (proj1 (winShare_winRate isoTime _) H1 H2).
Defined.

(** ** The sort setting and the statistics *)

Lemma winRate_totalTrades_Permutation (getTime : string -> option Z)
    (trades trades' : list Trade.t) :
  Permutation trades trades' ->
  num_eq (TrackRecordMetrics.winRate (calculateMetrics getTime trades))
    (TrackRecordMetrics.winRate (calculateMetrics getTime trades'))
  /\ TrackRecordMetrics.totalTrades (calculateMetrics getTime trades)
     = TrackRecordMetrics.totalTrades (calculateMetrics getTime trades').
Proof.
  intros Hp.
  pose proof (winnersOf_Permutation _ _ Hp) as HW.
  destruct trades as [|t ts].
  { apply Permutation_nil in Hp. subst trades'. split; reflexivity. }
  assert (Hne : t :: ts <> []) by congruence.
  assert (Hne' : trades' <> []).
  { intros ->. apply Permutation_sym, Permutation_nil in Hp. congruence. }
  rewrite !totalTrades_closed, !winRate_closed by assumption.
  split.
  - cbn [num_eq].
    now rewrite (of_length_Permutation _ _ HW), (of_length_Permutation _ _ Hp).
  - apply Permutation_length, Hp.
Qed.

(** X23. The sort key and direction of the table do not change [winRate]
    and [totalTrades] computed from [filteredTrades].  They can change
    [maxDrawdown]: for a loss, a win and a loss of 10 on one day it is 10
    when the table is sorted by date and 20 when it is sorted by result. *)
Theorem filteredTrades_metrics (getTime : string -> option Z)
    (filters : Filters.t) (sortBy sortBy' : SortKey) (sortDir sortDir' : SortDir)
    (trades : list Trade.t) :
  let m :=
    calculateMetrics getTime
      (filteredTrades getTime filters sortBy sortDir trades) in
  let m' :=
    calculateMetrics getTime
      (filteredTrades getTime filters sortBy' sortDir' trades) in
  num_eq (TrackRecordMetrics.winRate m) (TrackRecordMetrics.winRate m')
  /\ TrackRecordMetrics.totalTrades m = TrackRecordMetrics.totalTrades m'
  /\ TrackRecordMetrics.maxDrawdown
       (calculateMetrics isoTime
          (filteredTrades isoTime defaultFilters keyDate asc
             [mkTrade "2024-01-01" loss 10; mkTrade "2024-01-01" win 10;
              mkTrade "2024-01-01" loss 10])) = 10
  /\ TrackRecordMetrics.maxDrawdown
       (calculateMetrics isoTime
          (filteredTrades isoTime defaultFilters keyPnl asc
             [mkTrade "2024-01-01" loss 10; mkTrade "2024-01-01" win 10;
              mkTrade "2024-01-01" loss 10])) = 20.
Proof.
  cbn zeta.
  assert (Hp : Permutation
                 (filteredTrades getTime filters sortBy sortDir trades)
                 (filteredTrades getTime filters sortBy' sortDir' trades)).
  { unfold filteredTrades. rewrite !sortWith_Permutation. reflexivity. }
  destruct (winRate_totalTrades_Permutation getTime _ _ Hp) as [Hw Ht].
  split; [exact Hw|]. split; [exact Ht|]. split; reflexivity.
Qed.

(** * Properties of the engine on binary64 numbers *)

(** ** The curve *)

Lemma b64_accumulate_length entries equity :
  length (B64.accumulate equity entries) = length entries.
Proof.
  revert equity; induction entries as [|e l IH]; intros equity; cbn;
    [reflexivity | now rewrite IH].
Qed.

Lemma b64_accumulate_pnl entries equity :
  map B64.EquityPoint.pnl (B64.accumulate equity entries)
  = map B64.Entry.delta entries.
Proof.
  revert equity; induction entries as [|e l IH]; intros equity; cbn;
    [reflexivity | now rewrite IH].
Qed.

Lemma b64_accumulate_last entries equity :
  match last (B64.accumulate equity entries) with
  | Some p =>
      B64.EquityPoint.value p
      = fold_left B64.add (map B64.Entry.delta entries) equity
  | None => entries = []
  end.
Proof.
  revert equity; induction entries as [|e l IH]; intros equity;
    cbn [B64.accumulate map fold_left]; [reflexivity|].
  rewrite last_cons. specialize (IH (B64.add equity (B64.Entry.delta e))).
  destruct (last (B64.accumulate (B64.add equity (B64.Entry.delta e)) l))
    as [p|].
  - exact IH.
  - subst l. reflexivity.
Qed.

Lemma b64_entriesOf_Permutation getTime trades deposits :
  Permutation (B64.entriesOf getTime trades deposits)
    (map B64.tradeEntry trades ++ map B64.depositEntry deposits).
Proof. apply sortWith_Permutation. Qed.

Lemma b64_buildEquityCurve_length getTime trades deposits :
  length (B64.buildEquityCurve getTime trades deposits)
  = (length trades + length deposits)%nat.
Proof.
  unfold B64.buildEquityCurve.
  rewrite b64_accumulate_length,
    (Permutation_length (b64_entriesOf_Permutation getTime trades deposits)).
  now rewrite length_app, !length_map.
Qed.

(** C1, as stated, fails on binary64 numbers: for a winning trade of 0.1 and
    deposits of 0.2 and 0.3 on the same day the last value is
    0.1 + 0.2 + 0.3 = 0.6000000000000001, while the sum of the results plus
    the sum of the deposits is 0.1 + 0.5 = 0.6. *)
Lemma b64_last_value_not_the_total :
  let trades := [B64.mkTrade "2024-01-01" win (B64.ratio 1 10)] in
  let deposits :=
    [B64.mkDeposit "2024-01-01" (B64.ratio 2 10);
     B64.mkDeposit "2024-01-01" (B64.ratio 3 10)] in
  last (map B64.EquityPoint.value
          (B64.buildEquityCurve isoTime trades deposits))
  = Some (S754_finite false 5404319552844596 (-53))
  /\ B64.add (B64.sum (map B64.calculatePnl trades))
       (B64.sum (map B64.CashMove.amount deposits))
     = S754_finite false 5404319552844595 (-53)
  /\ SFeqb (S754_finite false 5404319552844596 (-53))
       (S754_finite false 5404319552844595 (-53)) = false.
Proof. cbn zeta. split; [|split]; vm_compute; reflexivity. Qed.

(** C1, amended. [buildEquityCurve] returns as many points as there are
    trades and deposits together; the [pnl] of its points are the results of
    the trades and the amounts of the deposits, in curve order; the value of
    its last point is the sum of these [pnl], added from 0 in curve order
    (and there is no last point only when both lists are empty); on two
    empty lists the result is the empty sequence. *)
Theorem b64_buildEquityCurve_length_last (getTime : string -> option Z)
    (trades : list B64.Trade.t) (deposits : list B64.CashMove.t) :
  length (B64.buildEquityCurve getTime trades deposits)
  = (length trades + length deposits)%nat
  /\ Permutation
       (map B64.EquityPoint.pnl (B64.buildEquityCurve getTime trades deposits))
       (map B64.calculatePnl trades ++ map B64.CashMove.amount deposits)
  /\ match last (B64.buildEquityCurve getTime trades deposits) with
     | Some p =>
         B64.EquityPoint.value p
         = B64.sum (map B64.EquityPoint.pnl
                      (B64.buildEquityCurve getTime trades deposits))
     | None => trades = [] /\ deposits = []
     end
  /\ B64.buildEquityCurve getTime [] [] = [].
Proof.
  split; [apply b64_buildEquityCurve_length|].
  split; [|split; [|reflexivity]].
  - unfold B64.buildEquityCurve. rewrite b64_accumulate_pnl.
    rewrite (Permutation_map B64.Entry.delta
               (b64_entriesOf_Permutation getTime trades deposits)).
    now rewrite map_app, !map_map.
  - pose proof (b64_buildEquityCurve_length getTime trades deposits) as Hl.
    unfold B64.buildEquityCurve in *.
    pose proof (b64_accumulate_last
                  (B64.entriesOf getTime trades deposits) B64.zero) as H.
    destruct (last _) as [p|] eqn:E.
    + rewrite H, b64_accumulate_pnl. reflexivity.
    + apply last_None in E. rewrite E in Hl. cbn in Hl.
      destruct trades, deposits; cbn in Hl; try discriminate; now split.
Qed.

(** ** Comparisons and differences of binary64 numbers *)

Ltac b64_cases :=
  repeat match goal with
    | |- context [match ?c with _ => _ end] => destruct c eqn:?
    end.

Lemma b64_Math_max_nonneg (a b : spec_float) :
  a = S754_nan \/ SFleb B64.zero a = true ->
  B64.Math_max a b = S754_nan \/ SFleb B64.zero (B64.Math_max a b) = true.
Proof.
  intros [->|Ha]; [left; reflexivity|].
  destruct a as [[]|[]| |[] m e]; cbn in Ha; try discriminate;
    destruct b as [[]|[]| |[] m' e']; unfold B64.Math_max, SFltb; cbn;
    b64_cases; first [left; reflexivity | right; reflexivity].
Qed.

Lemma b64_compare_refl (a : spec_float) :
  B64.isFinite a = true -> SFcompare a a = Some Eq.
Proof.
  destruct a as [s|s| |[] m e]; cbn; try discriminate; intros _;
    try reflexivity;
    rewrite Z.compare_refl, Pos.compare_cont_refl; reflexivity.
Qed.

Lemma b64_compare_Eq (a b : spec_float) :
  B64.isFinite a = true -> B64.isFinite b = true ->
  SFcompare a b = Some Eq ->
  a = b \/ exists s s', a = S754_zero s /\ b = S754_zero s'.
Proof.
  destruct a as [s|s| |s m e], b as [s'|s'| |s' m' e']; cbn;
    try discriminate; intros _ _ H.
  - right. now exists s, s'.
  - destruct s'; discriminate.
  - destruct s; discriminate.
  - left. destruct s, s'; try discriminate;
      destruct (Z.compare_spec e e') as [->| |]; try discriminate;
      injection H as H.
    + apply (f_equal CompOpp) in H. rewrite CompOpp_involutive in H.
      cbn in H. apply Pos.compare_eq in H. now subst.
    + apply Pos.compare_eq in H. now subst.
Qed.

Lemma b64_sub_self (a : spec_float) :
  B64.isFinite a = true -> B64.sub a a = B64.zero.
Proof.
  destruct a as [[]|s| |s m e]; cbn; try discriminate; intros _;
    try reflexivity.
  now rewrite Z.sub_diag.
Qed.

Lemma b64_sub_equal (a b : spec_float) :
  B64.isFinite a = true -> B64.isFinite b = true ->
  SFcompare a b = Some Eq -> exists s, B64.sub a b = S754_zero s.
Proof.
  intros Ha Hb H.
  destruct (b64_compare_Eq a b Ha Hb H) as [->|(s & s' & -> & ->)].
  - exists false. now apply b64_sub_self.
  - destruct s, s'; eexists; reflexivity.
Qed.

Lemma b64_leb_zero_sign (s s' : bool) (w : spec_float) :
  SFleb (S754_zero s) w = SFleb (S754_zero s') w.
Proof. destruct w; reflexivity. Qed.

(** The new peak at a point that is not below the peak: it equals the value
    of the point. *)
Lemma b64_Math_max_le (p v : spec_float) :
  B64.isFinite p = true -> B64.isFinite v = true -> SFleb p v = true ->
  B64.isFinite (B64.Math_max p v) = true
  /\ SFcompare (B64.Math_max p v) v = Some Eq
  /\ forall w, SFleb v w = true -> SFleb (B64.Math_max p v) w = true.
Proof.
  intros Hp Hv Hle.
  assert (Hvv : SFcompare v v = Some Eq) by now apply b64_compare_refl.
  unfold SFleb in Hle. destruct (SFcompare p v) as [[]|] eqn:E;
    try discriminate.
  - (* equal *)
    destruct (b64_compare_Eq p v Hp Hv E) as [->|(s & s' & -> & ->)].
    + assert (Hm : B64.Math_max v v = v).
      { unfold B64.Math_max, SFltb. rewrite Hvv.
        destruct v as [[]|[]| |[] m e]; try discriminate; reflexivity. }
      rewrite Hm. repeat split; [exact Hv | exact Hvv | tauto].
    + destruct s, s'; cbn; repeat split; try reflexivity;
        intros w Hw; destruct w; exact Hw.
  - (* below *)
    assert (Hm : B64.Math_max p v = v).
    { unfold B64.Math_max, SFltb. rewrite E.
      destruct p as [[]|[]| |[] m e]; try discriminate;
        destruct v as [[]|[]| |[] m' e']; try discriminate; reflexivity. }
    rewrite Hm. repeat split; [exact Hv | exact Hvv | tauto].
Qed.

Lemma b64_Math_max_zero (s : bool) :
  B64.Math_max B64.zero (S754_zero s) = B64.zero.
Proof. destruct s; reflexivity. Qed.

(** ** The drawdown *)

Lemma b64_drawdownWalk_step point points st :
  fold_left B64.drawdownStep (point :: points) st
  = fold_left B64.drawdownStep points
      (B64.Math_max (fst st) (B64.EquityPoint.value point),
       B64.Math_max (snd st)
         (B64.sub (B64.Math_max (fst st) (B64.EquityPoint.value point))
            (B64.EquityPoint.value point))).
Proof. reflexivity. Qed.

Lemma b64_drawdown_never_negative points peak dd :
  dd = S754_nan \/ SFleb B64.zero dd = true ->
  snd (fold_left B64.drawdownStep points (peak, dd)) = S754_nan
  \/ SFleb B64.zero (snd (fold_left B64.drawdownStep points (peak, dd))) = true.
Proof.
  revert peak dd; induction points as [|p l IH]; intros peak dd Hdd.
  - exact Hdd.
  - rewrite b64_drawdownWalk_step. apply IH. cbn [fst snd].
    now apply b64_Math_max_nonneg.
Qed.

Lemma b64_drawdown_flat points peak :
  B64.isFinite peak = true ->
  Forall (fun v => B64.isFinite v = true) (map B64.EquityPoint.value points) ->
  B64.nonDecreasing (peak :: map B64.EquityPoint.value points) = true ->
  snd (fold_left B64.drawdownStep points (peak, B64.zero)) = B64.zero.
Proof.
  revert peak; induction points as [|p l IH]; intros peak Hp Hfin Hnd.
  - reflexivity.
  - rewrite b64_drawdownWalk_step. cbn [fst snd].
    cbn [map] in Hfin, Hnd. apply Forall_cons_1 in Hfin as [Hv Hfin].
    set (v := B64.EquityPoint.value p) in *.
    assert (Hle : SFleb peak v = true /\
                  B64.nonDecreasing (v :: map B64.EquityPoint.value l) = true).
    { cbn [B64.nonDecreasing] in Hnd. apply andb_prop in Hnd as [H1 H2].
      split; [exact H1|]. exact H2. }
    destruct Hle as [Hle Hnd'].
    destruct (b64_Math_max_le peak v Hp Hv Hle) as (Hfm & Heq & Hnext).
    destruct (b64_sub_equal _ _ Hfm Hv Heq) as [s Hs].
    rewrite Hs, b64_Math_max_zero.
    apply IH; [exact Hfm | exact Hfin |].
    destruct l as [|q l]; [reflexivity|].
    cbn [map B64.nonDecreasing] in *.
    apply andb_prop in Hnd' as [H1 H2].
    apply andb_true_intro. split; [now apply Hnext | exact H2].
Qed.

Lemma b64_maxDrawdown_unfold getTime trade trades :
  B64.TrackRecordMetrics.maxDrawdown
    (B64.calculateMetrics getTime (trade :: trades))
  = snd (B64.drawdownWalk (B64.buildEquityCurve getTime (trade :: trades) [])).
Proof. reflexivity. Qed.

(** C5, amended. The [maxDrawdown] of [calculateMetrics] is never negative:
    it is 0 or more, or NaN (two winning trades of 2^1023 overflow the equity
    and give NaN).  It is 0 whenever every value of the curve of the trades
    is finite and the curve, preceded by the initial equity 0, is
    non-decreasing. *)
Theorem b64_calculateMetrics_maxDrawdown_nonneg (getTime : string -> option Z)
    (trades : list B64.Trade.t) :
  (B64.TrackRecordMetrics.maxDrawdown (B64.calculateMetrics getTime trades)
   = S754_nan
   \/ SFleb B64.zero
        (B64.TrackRecordMetrics.maxDrawdown
           (B64.calculateMetrics getTime trades)) = true)
  /\ (Forall (fun v => B64.isFinite v = true)
        (map B64.EquityPoint.value (B64.buildEquityCurve getTime trades [])) ->
      B64.nonDecreasing
        (B64.zero
         :: map B64.EquityPoint.value (B64.buildEquityCurve getTime trades []))
      = true ->
      B64.TrackRecordMetrics.maxDrawdown (B64.calculateMetrics getTime trades)
      = B64.zero)
  /\ B64.TrackRecordMetrics.maxDrawdown
       (B64.calculateMetrics isoTime
          [B64.mkTrade "2024-01-01" win (B64.pow2 1023);
           B64.mkTrade "2024-01-02" win (B64.pow2 1023)]) = S754_nan.
Proof.
  split; [|split; [|vm_compute; reflexivity]].
  - destruct trades as [|t ts]; [right; reflexivity|].
    rewrite b64_maxDrawdown_unfold. apply b64_drawdown_never_negative.
    right. reflexivity.
  - intros Hfin Hnd. destruct trades as [|t ts]; [reflexivity|].
    rewrite b64_maxDrawdown_unfold. now apply b64_drawdown_flat.
Qed.

Lemma b64_calculateMetrics_maxDrawdown_nonneg_witness :
  let trades :=
    [B64.mkTrade "2024-01-02" win (B64.ratio 1 10);
     B64.mkTrade "2024-01-01" win (B64.ratio 2 10)] in
  B64.nonDecreasing
    (B64.zero
     :: map B64.EquityPoint.value (B64.buildEquityCurve isoTime trades []))
  = true
  /\ B64.TrackRecordMetrics.maxDrawdown (B64.calculateMetrics isoTime trades)
     = B64.zero.
Proof.
  cbn zeta. split; [vm_compute; reflexivity|].
  apply (proj1 (proj2 (b64_calculateMetrics_maxDrawdown_nonneg isoTime
                         [B64.mkTrade "2024-01-02" win (B64.ratio 1 10);
                          B64.mkTrade "2024-01-01" win (B64.ratio 2 10)]))).
  - vm_compute. repeat constructor.
  - vm_compute. reflexivity.
Defined.

(** ** The summary statistics *)

Lemma b64_calculateMetrics_cons getTime trade rest :
  let trades := trade :: rest in
  B64.calculateMetrics getTime trades
  = {| B64.TrackRecordMetrics.netPnl := B64.sum (map B64.calculatePnl trades);
       B64.TrackRecordMetrics.winRate :=
         B64.mul (B64.div (B64.ofLength (B64.winnersOf trades))
                    (B64.ofLength trades)) (B64.ofZ 100);
       B64.TrackRecordMetrics.profitFactor :=
         match B64.winnersOf trades, B64.losersOf trades with
         | _ :: _, _ :: _ =>
             Some (B64.div (B64.sum (B64.winnersOf trades))
                     (B64.Math_abs (B64.sum (B64.losersOf trades))))
         | _, _ => None
         end;
       B64.TrackRecordMetrics.riskReward :=
         match
           match B64.winnersOf trades with
           | [] => None
           | _ => Some (B64.div (B64.sum (B64.winnersOf trades))
                          (B64.ofLength (B64.winnersOf trades)))
           end,
           match B64.losersOf trades with
           | [] => None
           | _ => Some (B64.div (B64.sum (B64.losersOf trades))
                          (B64.ofLength (B64.losersOf trades)))
           end
         with
         | Some aw, Some al =>
             if negb (SFeqb al B64.zero)
             then Some (B64.div aw (B64.Math_abs al)) else None
         | _, _ => None
         end;
       B64.TrackRecordMetrics.maxDrawdown :=
         snd (B64.drawdownWalk (B64.buildEquityCurve getTime trades []));
       B64.TrackRecordMetrics.averageWin :=
         match B64.winnersOf trades with
         | [] => None
         | _ => Some (B64.div (B64.sum (B64.winnersOf trades))
                        (B64.ofLength (B64.winnersOf trades)))
         end;
       B64.TrackRecordMetrics.averageLoss :=
         match B64.losersOf trades with
         | [] => None
         | _ => Some (B64.div (B64.sum (B64.losersOf trades))
                        (B64.ofLength (B64.losersOf trades)))
         end;
       B64.TrackRecordMetrics.totalTrades := length trades |}.
Proof. reflexivity. Qed.

(** C6, as stated, fails on binary64 numbers: for a win of 2^1000 and a loss
    of 2^-100 both partitions are non-empty and [profitFactor] and
    [riskReward] are Infinity. *)
Lemma b64_profitFactor_infinite :
  let trades :=
    [B64.mkTrade "2024-01-01" win (B64.pow2 1000);
     B64.mkTrade "2024-01-02" loss (B64.pow2 (-100))] in
  B64.winnersOf trades <> [] /\ B64.losersOf trades <> []
  /\ B64.TrackRecordMetrics.profitFactor (B64.calculateMetrics isoTime trades)
     = Some (S754_infinity false)
  /\ B64.TrackRecordMetrics.riskReward (B64.calculateMetrics isoTime trades)
     = Some (S754_infinity false).
Proof.
  cbn zeta. split; [vm_compute; discriminate|].
  split; [vm_compute; discriminate|].
  split; vm_compute; reflexivity.
Qed.

(** C6, amended. For a non-empty list of trades, [profitFactor] is the sum
    of the winners divided by the absolute value of the sum of the losers
    when there are both winners and losers; [profitFactor] and [riskReward]
    are [null] whenever there is no winner or no loser. *)
Theorem b64_calculateMetrics_profitFactor (getTime : string -> option Z)
    (trades : list B64.Trade.t) :
  trades <> [] ->
  (B64.winnersOf trades <> [] -> B64.losersOf trades <> [] ->
   B64.TrackRecordMetrics.profitFactor (B64.calculateMetrics getTime trades)
   = Some (B64.div (B64.sum (B64.winnersOf trades))
             (B64.Math_abs (B64.sum (B64.losersOf trades)))))
  /\ (B64.winnersOf trades = [] \/ B64.losersOf trades = [] ->
      B64.TrackRecordMetrics.profitFactor (B64.calculateMetrics getTime trades)
      = None
      /\ B64.TrackRecordMetrics.riskReward
           (B64.calculateMetrics getTime trades) = None).
Proof.
  intros Hne. destruct trades as [|t ts]; [congruence|].
  rewrite b64_calculateMetrics_cons.
  cbn [B64.TrackRecordMetrics.profitFactor B64.TrackRecordMetrics.riskReward].
  destruct (B64.winnersOf (t :: ts)) as [|w ws],
    (B64.losersOf (t :: ts)) as [|l ls]; split; intros;
    try congruence; try (split; reflexivity);
    try match goal with H : _ \/ _ |- _ => destruct H; congruence end.
Qed.

Lemma b64_calculateMetrics_profitFactor_witness :
  let trades :=
    [B64.mkTrade "2024-01-01" win (B64.ofZ 200);
     B64.mkTrade "2024-01-02" loss (B64.ofZ 100)] in
  trades <> []
  /\ B64.winnersOf trades <> []
  /\ B64.losersOf trades <> []
  /\ B64.TrackRecordMetrics.profitFactor (B64.calculateMetrics isoTime trades)
     = Some (B64.div (B64.sum (B64.winnersOf trades))
               (B64.Math_abs (B64.sum (B64.losersOf trades)))).
Proof.
  cbn zeta.
  assert (H1 : [B64.mkTrade "2024-01-01" win (B64.ofZ 200);
                B64.mkTrade "2024-01-02" loss (B64.ofZ 100)] <> [])
    by discriminate.
  assert (H2 : B64.winnersOf
                 [B64.mkTrade "2024-01-01" win (B64.ofZ 200);
                  B64.mkTrade "2024-01-02" loss (B64.ofZ 100)] <> [])
    by (vm_compute; discriminate).
  assert (H3 : B64.losersOf
                 [B64.mkTrade "2024-01-01" win (B64.ofZ 200);
                  B64.mkTrade "2024-01-02" loss (B64.ofZ 100)] <> [])
    by (vm_compute; discriminate).
  split; [exact H1|]. split; [exact H2|]. split; [exact H3|].
  exact (proj1 (b64_calculateMetrics_profitFactor isoTime _ H1) H2 H3).
Defined.

(** ** The order of the trades *)

Lemma b64_winnersOf_Permutation trades trades' :
  Permutation trades trades' ->
  Permutation (B64.winnersOf trades) (B64.winnersOf trades').
Proof. intros H. apply Permutation_List_filter, Permutation_map, H. Qed.

Lemma b64_losersOf_Permutation trades trades' :
  Permutation trades trades' ->
  Permutation (B64.losersOf trades) (B64.losersOf trades').
Proof. intros H. apply Permutation_List_filter, Permutation_map, H. Qed.

Lemma Permutation_nil_iff {A} (l l' : list A) :
  Permutation l l' -> (l = [] <-> l' = []).
Proof.
  intros H. split; intros ->.
  - now apply Permutation_nil in H.
  - now apply Permutation_sym, Permutation_nil in H.
Qed.

(** C10, as stated, fails on binary64 numbers: three wins of 0.1, 0.2 and
    0.3 give a [netPnl] of 0.6000000000000001, and 0.6 in the reverse
    order. *)
Lemma b64_netPnl_depends_on_order :
  let trades :=
    [B64.mkTrade "2024-01-01" win (B64.ratio 1 10);
     B64.mkTrade "2024-01-02" win (B64.ratio 2 10);
     B64.mkTrade "2024-01-03" win (B64.ratio 3 10)] in
  Permutation trades (rev trades)
  /\ B64.TrackRecordMetrics.netPnl (B64.calculateMetrics isoTime trades)
     = S754_finite false 5404319552844596 (-53)
  /\ B64.TrackRecordMetrics.netPnl (B64.calculateMetrics isoTime (rev trades))
     = S754_finite false 5404319552844595 (-53)
  /\ SFeqb (S754_finite false 5404319552844596 (-53))
       (S754_finite false 5404319552844595 (-53)) = false.
Proof.
  cbn zeta. split; [apply Permutation_rev|].
  split; [|split]; vm_compute; reflexivity.
Qed.

(** C10, amended. On a permutation of the list of trades, [calculateMetrics]
    returns the same [winRate] and [totalTrades]; the winners and the losers
    are the same up to their order, so [averageWin], [averageLoss] and
    [profitFactor] are [null] on the one list exactly when they are on the
    other. *)
Theorem b64_calculateMetrics_Permutation (getTime : string -> option Z)
    (trades trades' : list B64.Trade.t) :
  Permutation trades trades' ->
  let m := B64.calculateMetrics getTime trades in
  let m' := B64.calculateMetrics getTime trades' in
  B64.TrackRecordMetrics.winRate m = B64.TrackRecordMetrics.winRate m'
  /\ B64.TrackRecordMetrics.totalTrades m = B64.TrackRecordMetrics.totalTrades m'
  /\ Permutation (B64.winnersOf trades) (B64.winnersOf trades')
  /\ Permutation (B64.losersOf trades) (B64.losersOf trades')
  /\ (B64.TrackRecordMetrics.averageWin m = None
      <-> B64.TrackRecordMetrics.averageWin m' = None)
  /\ (B64.TrackRecordMetrics.averageLoss m = None
      <-> B64.TrackRecordMetrics.averageLoss m' = None)
  /\ (B64.TrackRecordMetrics.profitFactor m = None
      <-> B64.TrackRecordMetrics.profitFactor m' = None).
Proof.
  intros Hp m m'. subst m m'.
  pose proof (b64_winnersOf_Permutation _ _ Hp) as HW.
  pose proof (b64_losersOf_Permutation _ _ Hp) as HL.
  pose proof (Permutation_length Hp) as Hlen.
  pose proof (Permutation_length HW) as HlW.
  pose proof (Permutation_nil_iff _ _ HW) as HnW.
  pose proof (Permutation_nil_iff _ _ HL) as HnL.
  destruct trades as [|t ts]; destruct trades' as [|t' ts'];
    try discriminate.
  { repeat split; auto. }
  rewrite !b64_calculateMetrics_cons.
  cbn [B64.TrackRecordMetrics.winRate B64.TrackRecordMetrics.totalTrades
       B64.TrackRecordMetrics.averageWin B64.TrackRecordMetrics.averageLoss
       B64.TrackRecordMetrics.profitFactor].
  unfold B64.ofLength. rewrite HlW, Hlen.
  split; [reflexivity|]. split; [reflexivity|].
  split; [exact HW|]. split; [exact HL|].
  destruct (B64.winnersOf (t :: ts)), (B64.winnersOf (t' :: ts')),
    (B64.losersOf (t :: ts)), (B64.losersOf (t' :: ts'));
    repeat split; intros; try reflexivity; try discriminate;
    try (exfalso; intuition discriminate).
Qed.

Lemma b64_calculateMetrics_Permutation_witness :
  let trades :=
    [B64.mkTrade "2024-01-01" win (B64.ratio 1 10);
     B64.mkTrade "2024-01-02" loss (B64.ratio 2 10)] in
  let trades' :=
    [B64.mkTrade "2024-01-02" loss (B64.ratio 2 10);
     B64.mkTrade "2024-01-01" win (B64.ratio 1 10)] in
  Permutation trades trades'
  /\ B64.TrackRecordMetrics.winRate (B64.calculateMetrics isoTime trades)
     = B64.TrackRecordMetrics.winRate (B64.calculateMetrics isoTime trades').
Proof.
  cbn zeta.
  assert (H : Permutation
                [B64.mkTrade "2024-01-01" win (B64.ratio 1 10);
                 B64.mkTrade "2024-01-02" loss (B64.ratio 2 10)]
                [B64.mkTrade "2024-01-02" loss (B64.ratio 2 10);
                 B64.mkTrade "2024-01-01" win (B64.ratio 1 10)])
    by apply perm_swap.
  split; [exact H|].
  exact (proj1 (b64_calculateMetrics_Permutation isoTime _ _ H)).
Defined.

(** ** The daily mapping *)

Section DailyMapping.

Variable numberToString : spec_float -> string.
Variable inheritedToString : string -> string.

Local Abbreviation aggregate :=
  (B64.aggregateDailyPnl numberToString inheritedToString).
Local Abbreviation step :=
  (B64.aggregateStep numberToString inheritedToString).

Lemma b64_aggregate_snoc trades trade :
  aggregate (trades ++ [trade]) = step (aggregate trades) trade.
Proof. unfold B64.aggregateDailyPnl. now rewrite fold_left_app. Qed.

Lemma b64_tradesOn_snoc day trades trade :
  B64.tradesOn day (trades ++ [trade])
  = B64.tradesOn day trades
    ++ (if String.eqb (B64.Trade.date trade) day then [trade] else []).
Proof. unfold B64.tradesOn. now rewrite List.filter_app. Qed.

Lemma b64_sum_snoc (l : list spec_float) (x : spec_float) :
  B64.sum (l ++ [x]) = B64.add (B64.sum l) x.
Proof. unfold B64.sum. now rewrite fold_left_app. Qed.

Lemma b64_inherited_proto key :
  B64.inherited key = false -> String.eqb key "__proto__" = false.
Proof.
  intros H. destruct (String.eqb_spec key "__proto__") as [->|]; [|reflexivity].
  discriminate H.
Qed.

(** The mapping after the trades of a list none of whose dates is a property
    name of [Object.prototype]. *)
Lemma b64_aggregate_lookup trades day :
  Forall (fun trade => B64.inherited (B64.Trade.date trade) = false) trades ->
  aggregate trades !! day
  = match B64.tradesOn day trades with
    | [] => None
    | _ :: _ =>
        Some (B64.JNumber
                (B64.sum (map B64.calculatePnl (B64.tradesOn day trades))))
    end.
Proof.
  induction trades as [|t l IH] using rev_ind; intros Hok.
  - reflexivity.
  - apply Forall_app in Hok as [Hl Ht]. apply Forall_cons_1 in Ht as [Ht _].
    specialize (IH Hl).
    rewrite b64_aggregate_snoc, b64_tradesOn_snoc.
    unfold B64.aggregateStep, B64.setProperty, B64.getProperty.
    rewrite (b64_inherited_proto _ Ht), Ht.
    destruct (String.eqb_spec (B64.Trade.date t) day) as [E|E].
    + subst day. rewrite lookup_insert_eq, IH.
      destruct (B64.tradesOn (B64.Trade.date t) l) as [|x xs].
      * reflexivity.
      * assert (Hs : B64.sum (map B64.calculatePnl ((x :: xs) ++ [t]))
                     = B64.add (B64.sum (map B64.calculatePnl (x :: xs)))
                         (B64.calculatePnl t))
          by (rewrite map_app; apply b64_sum_snoc).
        rewrite Hs. reflexivity.
    + rewrite lookup_insert_ne by exact E. rewrite IH, app_nil_r.
      reflexivity.
Qed.

Lemma b64_tradesOn_nil day trades :
  B64.tradesOn day trades = []
  <-> ~ exists trade, In trade trades /\ B64.Trade.date trade = day.
Proof.
  unfold B64.tradesOn. split.
  - intros H (t & Ht & Hd).
    assert (Hin : In t (List.filter
                         (fun trade => String.eqb (B64.Trade.date trade) day)
                         trades)).
    { apply List.filter_In. split; [exact Ht|]. now apply String.eqb_eq. }
    rewrite H in Hin. exact Hin.
  - intros H.
    destruct (List.filter _ trades) as [|t l] eqn:E; [reflexivity|].
    exfalso. apply H. exists t.
    assert (Hin : In t (List.filter
                         (fun trade => String.eqb (B64.Trade.date trade) day)
                         trades))
      by (rewrite E; now left).
    apply List.filter_In in Hin as [Ht Hd]. split; [exact Ht|].
    now apply String.eqb_eq.
Qed.

End DailyMapping.

Lemma classic_In day (trades : list B64.Trade.t) :
  (exists trade, In trade trades /\ B64.Trade.date trade = day)
  \/ ~ (exists trade, In trade trades /\ B64.Trade.date trade = day).
Proof.
  induction trades as [|t l IH].
  - right. intros (x & [] & _).
  - destruct (String.eqb_spec (B64.Trade.date t) day) as [E|E].
    + left. exists t. split; [now left | exact E].
    + destruct IH as [(x & Hx & Hd)|Hno].
      * left. exists x. split; [now right | exact Hd].
      * right. intros (x & [->|Hx] & Hd); [contradiction|].
        apply Hno. now exists x.
Qed.

(** C8, as stated, fails on binary64 numbers: for trades of 0.2 and 0.3 on
    one day and 0.1 on another, the mapping holds 0.5 and 0.1, which add up
    to 0.6 in either order, while [netPnl] is 0.6000000000000001. *)
Lemma b64_daily_values_not_netPnl :
  let trades :=
    [B64.mkTrade "2024-01-01" win (B64.ratio 2 10);
     B64.mkTrade "2024-01-02" win (B64.ratio 1 10);
     B64.mkTrade "2024-01-01" win (B64.ratio 3 10)] in
  B64.aggregateDailyPnl (fun _ => EmptyString) (fun _ => EmptyString) trades
  = {[ "2024-01-01" := B64.JNumber (B64.ratio 5 10);
       "2024-01-02" := B64.JNumber (B64.ratio 1 10) ]}
  /\ B64.add (B64.ratio 5 10) (B64.ratio 1 10)
     = S754_finite false 5404319552844595 (-53)
  /\ B64.add (B64.ratio 1 10) (B64.ratio 5 10)
     = S754_finite false 5404319552844595 (-53)
  /\ B64.TrackRecordMetrics.netPnl (B64.calculateMetrics isoTime trades)
     = S754_finite false 5404319552844596 (-53)
  /\ SFeqb (S754_finite false 5404319552844595 (-53))
       (S754_finite false 5404319552844596 (-53)) = false.
Proof.
  cbn zeta. split; [|split; [|split; [|split]]]; vm_compute; reflexivity.
Qed.

(** C8, amended. When no trade date is a property name of [Object.prototype]
    (no date that parses is one), a date string is a key of the mapping of
    [aggregateDailyPnl] exactly when some trade of the list has that date,
    and its value is the number obtained by adding the results of the trades
    of that date, from 0, in list order; two results of a day that cancel
    out leave the key with the value 0.  The function takes the trades only,
    so no deposit enters the mapping.  A trade dated [__proto__] adds no
    key. *)
Theorem b64_aggregateDailyPnl_keys_values
    (numberToString : spec_float -> string)
    (inheritedToString : string -> string)
    (trades : list B64.Trade.t) :
  (Forall (fun trade => B64.inherited (B64.Trade.date trade) = false) trades ->
   forall day : string,
     (is_Some (B64.aggregateDailyPnl numberToString inheritedToString trades
               !! day)
      <-> exists trade, In trade trades /\ B64.Trade.date trade = day)
     /\ forall v,
          B64.aggregateDailyPnl numberToString inheritedToString trades !! day
          = Some v ->
          v = B64.JNumber
                (B64.sum (map B64.calculatePnl (B64.tradesOn day trades))))
  /\ B64.aggregateDailyPnl numberToString inheritedToString
       [B64.mkTrade "2024-01-01" win (B64.ofZ 200);
        B64.mkTrade "2024-01-01" loss (B64.ofZ 200)]
     !! "2024-01-01" = Some (B64.JNumber B64.zero)
  /\ B64.aggregateDailyPnl numberToString inheritedToString
       [B64.mkTrade "__proto__" win (B64.ofZ 200)] = ∅
  /\ forall day : string, isoTime day <> None -> B64.inherited day = false.
Proof.
  split; [|split; [|split]].
  - intros Hok day.
    pose proof (b64_aggregate_lookup numberToString inheritedToString
                  trades day Hok) as H.
    pose proof (b64_tradesOn_nil day trades) as Hnil.
    destruct (B64.tradesOn day trades) as [|x xs] eqn:E.
    + rewrite H. split.
      * split; [intros [v Hv]; discriminate|].
        intros Hex. exfalso. now apply (proj1 Hnil).
      * intros v Hv. discriminate.
    + rewrite H. split.
      * split; [|intros _; eexists; reflexivity].
        intros _. destruct (classic_In day trades) as [Hex|Hno].
        -- exact Hex.
        -- apply (proj2 Hnil) in Hno. discriminate.
      * intros v Hv. now injection Hv as <-.
  - vm_compute. reflexivity.
  - reflexivity.
  - intros day Hd. unfold B64.inherited, B64.objectPrototypeKeys.
    cbn [existsb].
    repeat match goal with
      | |- context [String.eqb day ?k] =>
          destruct (String.eqb_spec day k) as [->|_];
          [exfalso; apply Hd; reflexivity|]
      end.
    reflexivity.
Qed.

Lemma b64_aggregateDailyPnl_keys_values_witness :
  let trades :=
    [B64.mkTrade "2024-01-01" win (B64.ratio 2 10);
     B64.mkTrade "2024-01-01" win (B64.ratio 3 10)] in
  Forall (fun trade => B64.inherited (B64.Trade.date trade) = false) trades
  /\ is_Some (B64.aggregateDailyPnl (fun _ => EmptyString) (fun _ => EmptyString) trades
              !! "2024-01-01").
Proof.
  cbn zeta.
  assert (H : Forall (fun trade => B64.inherited (B64.Trade.date trade) = false)
                [B64.mkTrade "2024-01-01" win (B64.ratio 2 10);
                 B64.mkTrade "2024-01-01" win (B64.ratio 3 10)])
    by (repeat constructor).
  split; [exact H|].
  apply (proj1 (b64_aggregateDailyPnl_keys_values (fun _ => EmptyString) (fun _ => EmptyString)
                  [B64.mkTrade "2024-01-01" win (B64.ratio 2 10);
                   B64.mkTrade "2024-01-01" win (B64.ratio 3 10)])
           H "2024-01-01").
  exists (B64.mkTrade "2024-01-01" win (B64.ratio 2 10)).
  split; [now left | reflexivity].
Defined.
